(** * PayPal Commerce alternative payment methods: the payment strategy

    A shallow embedding of
    [PayPalCommerceAlternativeMethodsPaymentStrategy] and of the Adyen script
    loader exercised by the loader's test-suite.

    The strategy is glue code around collaborators that live outside the
    class: the payment integration service, the PayPal integration service,
    the PayPal SDK loader, the vendor widgets, the loading indicator, the
    document and the callbacks handed in by the caller.  Every call that
    leaves the class is recorded as an [Event]; what the collaborator answers
    is read from a [Collaborators] record.  The four private fields of the
    class and the option objects it receives by reference form the [Store]
    that the methods thread through. *)

From Stdlib Require Import String Ascii List Bool Arith Lia.
Import ListNotations.
Open Scope string_scope.
Open Scope list_scope.

(** ** Strings as JavaScript sees them *)

Definition dquote : string := String (ascii_of_nat 34) EmptyString.

(** [String.prototype.toUpperCase], on the ASCII letters. *)
Definition upper_ascii (c : ascii) : ascii :=
  let n := nat_of_ascii c in
  if andb (97 <=? n)%nat (n <=? 122)%nat then ascii_of_nat (n - 32) else c.

Fixpoint toUpperCase (s : string) : string :=
  match s with
  | EmptyString => EmptyString
  | String c rest => String (upper_ascii c) (toUpperCase rest)
  end.

(** [String.prototype.toLowerCase], on the ASCII letters. *)
Definition lower_ascii (c : ascii) : ascii :=
  let n := nat_of_ascii c in
  if andb (65 <=? n)%nat (n <=? 90)%nat then ascii_of_nat (n + 32) else c.

Fixpoint toLowerCase (s : string) : string :=
  match s with
  | EmptyString => EmptyString
  | String c rest => String (lower_ascii c) (toLowerCase rest)
  end.

(** [String.prototype.split] with a one-character separator. *)
Fixpoint split (sep : ascii) (s : string) : list string :=
  match s with
  | EmptyString => [EmptyString]
  | String c rest =>
      if Ascii.eqb c sep then EmptyString :: split sep rest
      else match split sep rest with
           | [] => [String c EmptyString]
           | piece :: pieces => String c piece :: pieces
           end
  end.

(** The truthiness test of [if (x)] / [!x] on an optional string: [undefined]
    and the empty string are falsy; a truthy value is narrowed to the string. *)
Definition truthy (x : option string) : option string :=
  match x with
  | Some EmptyString => None
  | Some s => Some s
  | None => None
  end.

(** The [in] operator on the own keys of an enum object. *)
Definition key_in (k : string) (keys : list string) : bool :=
  existsb (String.eqb k) keys.

(** ** Errors *)

Definition missing_argument_message (argument : string) : string :=
  ("Unable to initialize payment because " ++ dquote ++ argument ++ dquote
   ++ " argument is not provided.")%string.

Definition missing_fields_container_message : string :=
  ("Unable to initialize payment because " ++ dquote
   ++ "options.paypalcommercealternativemethods" ++ dquote
   ++ " argument should contain " ++ dquote ++ "apmFieldsContainer" ++ dquote
   ++ ".")%string.

Inductive Error : Type :=
| InvalidArgumentError (message : string)
| PaymentArgumentInvalidError (invalidFields : list string)
| PaymentMethodInvalidError
| OrderFinalizationNotRequiredError
| PaymentMethodClientUnavailableError
| OtherError (name : string).

(** ** Data handed in by the caller *)

Definition Ref := nat.
Definition CallbackRef := string.
Definition StyleDictionary := list (string * string).

(** What the caller's [onValidate(resolve, reject)] does with its arguments. *)
Inductive Validation : Type :=
| CallsResolve
| CallsReject
| CallsNeither.

Record PayPalCommerceAlternativeMethodsPaymentOptions : Type := {
  container : string;
  apmFieldsContainer : option string;
  apmFieldsStyles : option StyleDictionary;
  onError : option CallbackRef;
  onRenderButton : option CallbackRef;
  onInitButton : CallbackRef;
  onValidate : Validation;
  submitForm : CallbackRef
}.

(** [PaymentInitializeOptions & WithPayPalCommerceAlternativeMethodsPaymentInitializeOptions];
    the two nested option objects are held by reference. *)
Record PaymentInitializeOptions : Type := {
  methodId : option string;
  gatewayId : option string;
  paypalcommerce : option Ref;
  paypalcommercealternativemethods : option Ref
}.

Record OrderPaymentRequestBody : Type := {
  payment_methodId : string;
  payment_gatewayId : option string
}.

Record OrderRequestBody : Type := {
  payment : option OrderPaymentRequestBody;
  useStoreCredit : option bool
}.

Record RequestParams : Type := {
  params_methodId : string;
  params_gatewayId : string
}.

Record PaymentRequestOptions : Type := {
  params : option RequestParams
}.

Record ApproveCallbackPayload : Type := {
  orderID : string
}.

(** ** Data answered by the collaborators *)

Record PayPalCommerceInitializationData : Type := {
  init_orderId : option string;
  shouldRenderFields : option bool;
  buttonStyle : option StyleDictionary
}.

Record PaymentMethod : Type := {
  pm_id : string;
  pm_gateway : option string;
  initializationData : option PayPalCommerceInitializationData
}.

Record Cart : Type := {
  currency_code : string
}.

Record BillingAddress : Type := {
  firstName : string;
  lastName : string;
  email : option string
}.

Record CheckoutSelectors : Type := {
  getPaymentMethodOrThrow : string -> string -> Error + PaymentMethod;
  getCartOrThrow : Error + Cart;
  getBillingAddressOrThrow : Error + BillingAddress
}.

(** The variables captured by the six arrow functions of [buttonOptions]. *)
Record ButtonClosure : Type := {
  captured_methodId : string;
  captured_gatewayId : string;
  captured_paypalOptions : Ref;
  captured_submitForm : CallbackRef;
  captured_onError : option CallbackRef
}.

Record PayPalCommerceButtonsOptions : Type := {
  fundingSource : string;
  style : StyleDictionary;
  handlers : ButtonClosure
}.

Record PayPalCommerceButtons : Type := {
  button_handle : nat;
  isEligible : bool
}.

Record PayPalCommerceFieldsOptions : Type := {
  fields_fundingSource : string;
  fields_style : StyleDictionary;
  fields_name : string;
  fields_email : option string
}.

Record PayPalCommerceFields : Type := {
  fields_handle : nat
}.

Record PayPalApmSdk : Type := {
  Buttons : PayPalCommerceButtonsOptions -> PayPalCommerceButtons;
  PaymentFields : PayPalCommerceFieldsOptions -> PayPalCommerceFields
}.

(** ** Calls that leave the class *)

Inductive Event : Type :=
| GetState
| GetPayPalApmsSdk (paymentMethod : PaymentMethod) (currencyCode : string)
| GetValidButtonStyle (buttonStyle : option StyleDictionary)
| SdkButtons (options : PayPalCommerceButtonsOptions)
| ButtonIsEligible (button : PayPalCommerceButtons)
| ButtonRender (button : PayPalCommerceButtons) (container : string)
| ButtonClose (button : PayPalCommerceButtons)
| QuerySelector (selector : string)
| ClearInnerHTML (selector : string)
| SdkPaymentFields (options : PayPalCommerceFieldsOptions)
| FieldsRender (fields : PayPalCommerceFields) (container : string)
| SubmitOrder (order : OrderRequestBody) (options : option PaymentRequestOptions)
| SubmitPayment (methodId : string) (orderId : option string) (gatewayId : option string)
| CreateOrder (providerId : string)
| LoadingIndicatorShow (container : string)
| LoadingIndicatorHide
| CallOnInitButton (callback : CallbackRef)
| CallOnValidate (validation : Validation)
| CallSubmitForm (callback : CallbackRef)
| CallOnError (callback : CallbackRef) (error : Error)
| CallOnRenderButton (callback : CallbackRef)
| Suspend.

(** The answers of the collaborators.  [None] from a submission means that the
    promise resolved, [Some e] that it rejected with [e].  [submitPayment]
    receives whatever [this.orderId] holds when the call is made. *)
Record Collaborators : Type := {
  getState : CheckoutSelectors;
  submitOrder : OrderRequestBody -> option PaymentRequestOptions -> option Error;
  submitPayment : string -> option string -> option string -> option Error;
  createOrder : string -> Error + string;
  getValidButtonStyle : option StyleDictionary -> StyleDictionary;
  getPayPalApmsSdk : PaymentMethod -> string -> Error + PayPalApmSdk;
  (** [document.querySelector]: whether the selector finds an element, or
      the [SyntaxError] of a selector that is not valid *)
  querySelector : string -> Error + bool;
  (** the keys of the [NonInstantAlternativePaymentMethods] enum, which is
      declared in [paypal-commerce-types] *)
  NonInstantAlternativePaymentMethods : list string
}.

(** ** The store *)

(** The private fields of the class. *)
Record Strategy : Type := {
  loadingIndicatorContainer : option string;
  orderId : option string;
  paypalButton : option PayPalCommerceButtons;
  paypalApms : option PayPalApmSdk
}.

(** The option objects of the caller, reached through references. *)
Record Heap : Type := {
  initializeOptions : Ref -> PaymentInitializeOptions;
  paypalOptionsAt : Ref -> PayPalCommerceAlternativeMethodsPaymentOptions
}.

Record Store : Type := {
  this : Strategy;
  heap : Heap
}.

Definition newStrategy : Strategy :=
  {| loadingIndicatorContainer := None;
     orderId := None;
     paypalButton := None;
     paypalApms := None |}.

(** ** The monad: state, exceptions and a log of calls *)

Inductive Result (A : Type) : Type :=
| Ok (a : A)
| Err (e : Error).
Arguments Ok {A} a.
Arguments Err {A} e.

Record Outcome (A : Type) : Type := {
  result : Result A;
  final : Store;
  trace : list Event
}.
Arguments result {A} o.
Arguments final {A} o.
Arguments trace {A} o.

Definition M (A : Type) : Type := Store -> Outcome A.

Definition ret {A} (a : A) : M A :=
  fun s => {| result := Ok a; final := s; trace := [] |}.

Definition throw {A} (e : Error) : M A :=
  fun s => {| result := Err e; final := s; trace := [] |}.

(** [prefix t o]: the outcome [o] of a continuation, after the calls [t]. *)
Definition prefix {A} (t : list Event) (o : Outcome A) : Outcome A :=
  {| result := result o; final := final o; trace := t ++ trace o |}.

Definition bind {A B} (c : M A) (k : A -> M B) : M B :=
  fun s =>
    let o := c s in
    match result o with
    | Ok a => prefix (trace o) (k a (final o))
    | Err e => {| result := Err e; final := final o; trace := trace o |}
    end.

Notation "x <- c ;; k" := (bind c (fun x => k))
  (at level 61, c at next level, right associativity).
Notation "c ;;; k" := (bind c (fun _ => k))
  (at level 61, right associativity).

(** A call to a collaborator. *)
Definition call (e : Event) : M unit :=
  fun s => {| result := Ok tt; final := s; trace := [e] |}.

(** A value or an exception coming back from a collaborator. *)
Definition answer {A} (r : Error + A) : M A :=
  match r with
  | inl e => throw e
  | inr a => ret a
  end.

Definition settled (r : option Error) : M unit :=
  match r with
  | Some e => throw e
  | None => ret tt
  end.

(** [await p]: the function is suspended, then resumes with the value of the
    promise or throws its rejection. *)
Definition await {A} (r : Error + A) : M A :=
  call Suspend ;;; answer r.

Definition await_settled (r : option Error) : M unit :=
  call Suspend ;;; settled r.

Definition getThis : M Strategy :=
  fun s => {| result := Ok (this s); final := s; trace := [] |}.

Definition setThis (f : Strategy -> Strategy) : M unit :=
  fun s => {| result := Ok tt;
              final := {| this := f (this s); heap := heap s |};
              trace := [] |}.

Definition readInitializeOptions (r : Ref) : M PaymentInitializeOptions :=
  fun s => {| result := Ok (initializeOptions (heap s) r); final := s; trace := [] |}.

Definition readPaypalOptions (r : Ref) : M PayPalCommerceAlternativeMethodsPaymentOptions :=
  fun s => {| result := Ok (paypalOptionsAt (heap s) r); final := s; trace := [] |}.

Definition set_orderId (v : option string) (t : Strategy) : Strategy :=
  {| loadingIndicatorContainer := loadingIndicatorContainer t;
     orderId := v;
     paypalButton := paypalButton t;
     paypalApms := paypalApms t |}.

Definition set_paypalButton (v : option PayPalCommerceButtons) (t : Strategy) : Strategy :=
  {| loadingIndicatorContainer := loadingIndicatorContainer t;
     orderId := orderId t;
     paypalButton := v;
     paypalApms := paypalApms t |}.

Definition set_paypalApms (v : option PayPalApmSdk) (t : Strategy) : Strategy :=
  {| loadingIndicatorContainer := loadingIndicatorContainer t;
     orderId := orderId t;
     paypalButton := paypalButton t;
     paypalApms := v |}.

Definition set_loadingIndicatorContainer (v : option string) (t : Strategy) : Strategy :=
  {| loadingIndicatorContainer := v;
     orderId := orderId t;
     paypalButton := paypalButton t;
     paypalApms := paypalApms t |}.

(** ** The class [PayPalCommerceAlternativeMethodsPaymentStrategy] *)

Section StrategyMethods.

(** The collaborators passed to the constructor, together with the document
    and the enum the class imports. *)
Variable env : Collaborators.

(** *** Utils *)

Definition isNonInstantPaymentMethod (methodId : string) : bool :=
  key_in (toUpperCase methodId) (NonInstantAlternativePaymentMethods env).

Definition getPaypalAmpsSdkOrThrow : M PayPalApmSdk :=
  self <- getThis ;;
  match paypalApms self with
  | None => throw PaymentMethodClientUnavailableError
  | Some sdk => ret sdk
  end.

(** *** Loading indicator *)

Definition toggleLoadingIndicator (isLoading : bool) : M unit :=
  self <- getThis ;;
  match isLoading, truthy (loadingIndicatorContainer self) with
  | true, Some c => call (LoadingIndicatorShow c)
  | _, _ => call LoadingIndicatorHide
  end.

(** *** Button methods and callbacks *)

Definition renderButton (methodId gatewayId : string) (paypalOptions : Ref) : M unit :=
  paypalAmpsSdk <- getPaypalAmpsSdkOrThrow ;;
  call GetState ;;;
  paymentMethod <- answer (getPaymentMethodOrThrow (getState env) methodId gatewayId) ;;
  let buttonStyle :=
    match initializationData paymentMethod with
    | Some d => buttonStyle d
    | None => None
    end in
  po <- readPaypalOptions paypalOptions ;;
  call (GetValidButtonStyle buttonStyle) ;;;
  let buttonOptions :=
    {| fundingSource := methodId;
       style := getValidButtonStyle env buttonStyle;
       handlers :=
         {| captured_methodId := methodId;
            captured_gatewayId := gatewayId;
            captured_paypalOptions := paypalOptions;
            captured_submitForm := submitForm po;
            captured_onError := onError po |} |} in
  call (SdkButtons buttonOptions) ;;;
  let button := Buttons paypalAmpsSdk buttonOptions in
  setThis (set_paypalButton (Some button)) ;;;
  call (ButtonIsEligible button) ;;;
  if negb (isEligible button) then ret tt
  else
    match onRenderButton po with
    | Some cb => call (CallOnRenderButton cb)
    | None => ret tt
    end ;;;
    call (ButtonRender button (container po)).

Definition onCreateOrder (methodId gatewayId : string) (paypalOptions : Ref) : M string :=
  po <- readPaypalOptions paypalOptions ;;
  (* await onValidate(onValidationPassed, noop) *)
  call (CallOnValidate (onValidate po)) ;;;
  match onValidate po with
  | CallsResolve => toggleLoadingIndicator true
  | CallsReject => ret tt
  | CallsNeither => ret tt
  end ;;;
  call Suspend ;;;
  call (CreateOrder "paypalcommercealternativemethodscheckout") ;;;
  orderId' <- await (createOrder env "paypalcommercealternativemethodscheckout") ;;
  if isNonInstantPaymentMethod methodId then
    let order := {| payment := None; useStoreCredit := Some false |} in
    let options :=
      {| params := Some {| params_methodId := methodId;
                           params_gatewayId := gatewayId |} |} in
    call (SubmitOrder order (Some options)) ;;;
    await_settled (submitOrder env order (Some options)) ;;;
    call (SubmitPayment methodId (Some orderId') (Some gatewayId)) ;;;
    await_settled (submitPayment env methodId (Some orderId') (Some gatewayId)) ;;;
    ret orderId'
  else ret orderId'.

Definition handleApprove (data : ApproveCallbackPayload) (submitForm : CallbackRef) : M unit :=
  setThis (set_orderId (Some (orderID data))) ;;;
  call (CallSubmitForm submitForm).

Definition handleFailure (error : Error) (onError : option CallbackRef) : M unit :=
  toggleLoadingIndicator false ;;;
  match onError with
  | Some cb => call (CallOnError cb error)
  | None => ret tt
  end.

(** *** Fields methods *)

Definition renderFields (methodId : string) (paypalOptions : Ref) : M unit :=
  paypalAmpsSdk <- getPaypalAmpsSdkOrThrow ;;
  call GetState ;;;
  billing <- answer (getBillingAddressOrThrow (getState env)) ;;
  po <- readPaypalOptions paypalOptions ;;
  match truthy (apmFieldsContainer po) with
  | None =>
      throw (InvalidArgumentError missing_fields_container_message)
  | Some fieldsContainer =>
      call (QuerySelector fieldsContainer) ;;;
      fieldContainerElement <- answer (querySelector env fieldsContainer) ;;
      (if fieldContainerElement : bool
       then call (ClearInnerHTML fieldsContainer)
       else ret tt) ;;;
      let fieldsOptions :=
        {| fields_fundingSource := methodId;
           fields_style := match apmFieldsStyles po with
                           | Some st => st
                           | None => []
                           end;
           fields_name := (firstName billing ++ " " ++ lastName billing)%string;
           fields_email := email billing |} in
      call (SdkPaymentFields fieldsOptions) ;;;
      let paypalPaymentFields := PaymentFields paypalAmpsSdk fieldsOptions in
      call (FieldsRender paypalPaymentFields fieldsContainer)
  end.

(** *** The public operations *)

Definition initialize (options : Ref) : M unit :=
  o <- readInitializeOptions options ;;
  let paypalOptions :=
    match paypalcommercealternativemethods o with
    | Some r => Some r
    | None => paypalcommerce o
    end in
  match truthy (methodId o) with
  | None =>
      throw (InvalidArgumentError (missing_argument_message "options.methodId"))
  | Some methodId =>
  match truthy (gatewayId o) with
  | None =>
      throw (InvalidArgumentError (missing_argument_message "options.gatewayId"))
  | Some gatewayId =>
  match paypalOptions with
  | None =>
      throw (InvalidArgumentError
               (missing_argument_message "options.paypalcommercealternativemethods"))
  | Some paypalOptions =>
      call GetState ;;;
      paymentMethod <- answer (getPaymentMethodOrThrow (getState env) methodId gatewayId) ;;
      let data := initializationData paymentMethod in
      let orderId' := match data with Some d => init_orderId d | None => None end in
      let shouldRenderFields' :=
        match data with Some d => shouldRenderFields d | None => None end in
      match truthy orderId' with
      | Some oid =>
          (* the shopper comes back from a smart payment button: no widget *)
          setThis (set_orderId (Some oid))
      | None =>
          cart <- answer (getCartOrThrow (getState env)) ;;
          call (GetPayPalApmsSdk paymentMethod (currency_code cart)) ;;;
          sdk <- await (getPayPalApmsSdk env paymentMethod (currency_code cart)) ;;
          setThis (set_paypalApms (Some sdk)) ;;;
          po <- readPaypalOptions paypalOptions ;;
          setThis (set_loadingIndicatorContainer
                     (nth_error (split "#" (container po)) 1)) ;;;
          renderButton methodId gatewayId paypalOptions ;;;
          match shouldRenderFields' with
          | Some true => renderFields methodId paypalOptions
          | _ => ret tt
          end
      end
  end end end.

(** [execute], run with no other turn of the event loop touching the instance
    while it is suspended; [executeAmid], further down, is [execute] with the
    turns that run during its first [await]. *)
Definition execute (payload : OrderRequestBody) (options : option PaymentRequestOptions)
  : M unit :=
  let order := {| payment := None; useStoreCredit := useStoreCredit payload |} in
  match payment payload with
  | None => throw (PaymentArgumentInvalidError ["payment"])
  | Some payment' =>
      let methodId := payment_methodId payment' in
      let gatewayId := payment_gatewayId payment' in
      self <- getThis ;;
      match truthy (orderId self) with
      | None => throw PaymentMethodInvalidError
      | Some _ =>
          (if negb (isNonInstantPaymentMethod methodId)
           then call (SubmitOrder order options) ;;;
                await_settled (submitOrder env order options)
           else ret tt) ;;;
          self' <- getThis ;;
          call (SubmitPayment methodId (orderId self') gatewayId) ;;;
          await_settled (submitPayment env methodId (orderId self') gatewayId)
      end
  end.

Definition finalize : M unit :=
  throw OrderFinalizationNotRequiredError.

Definition deinitialize : M unit :=
  setThis (set_orderId None) ;;;
  self <- getThis ;;
  match paypalButton self with
  | Some button => call (ButtonClose button)
  | None => ret tt
  end.

End StrategyMethods.

(** ** The entry points seen from outside *)

(** The handlers wired into [buttonOptions], as the vendor widget invokes them. *)
Inductive ButtonCallback : Type :=
| CbOnInit
| CbCreateOrder
| CbOnApprove (data : ApproveCallbackPayload)
| CbOnCancel
| CbOnError (error : Error)
| CbOnClick.

Definition invoke (env : Collaborators) (o : PayPalCommerceButtonsOptions)
  (cb : ButtonCallback) : M unit :=
  let c := handlers o in
  match cb with
  | CbOnInit =>
      po <- readPaypalOptions (captured_paypalOptions c) ;;
      call (CallOnInitButton (onInitButton po))
  | CbCreateOrder =>
      onCreateOrder env (captured_methodId c) (captured_gatewayId c)
        (captured_paypalOptions c) ;;;
      ret tt
  | CbOnApprove data => handleApprove data (captured_submitForm c)
  | CbOnCancel => toggleLoadingIndicator false
  | CbOnError error => handleFailure error (captured_onError c)
  | CbOnClick =>
      po <- readPaypalOptions (captured_paypalOptions c) ;;
      call (CallOnValidate (onValidate po))
  end.

(** The four methods of the [PaymentStrategy] interface. *)
Inductive Operation : Type :=
| Initialize (options : Ref)
| Execute (payload : OrderRequestBody) (options : option PaymentRequestOptions)
| Finalize
| Deinitialize.

Definition perform (env : Collaborators) (op : Operation) : M unit :=
  match op with
  | Initialize options => initialize env options
  | Execute payload options => execute env payload options
  | Finalize => finalize
  | Deinitialize => deinitialize
  end.

(** Anything that can happen to a strategy instance. *)
Inductive Action : Type :=
| Public (op : Operation)
| Vendor (o : PayPalCommerceButtonsOptions) (cb : ButtonCallback).

Definition act (env : Collaborators) (a : Action) : M unit :=
  match a with
  | Public op => perform env op
  | Vendor o cb => invoke env o cb
  end.

(** A sequence of actions; an exception ends one action, not the sequence. *)
Fixpoint history (env : Collaborators) (actions : list Action) (s : Store)
  : Store * list Event :=
  match actions with
  | [] => (s, [])
  | a :: rest =>
      let o := act env a s in
      let '(s', t') := history env rest (final o) in
      (s', trace o ++ t')
  end.

(** ** Suspension *)

(** What the other turns of the event loop do while a function of the
    strategy is suspended at an [await]: a sequence of public operations and
    vendor callbacks on the same instance, each run as a turn of its own.
    Their errors are theirs; their writes and their calls are seen when the
    suspended function resumes. *)
Definition elsewhere (env : Collaborators) (turns : list Action) : M unit :=
  fun s => {| result := Ok tt;
              final := fst (history env turns s);
              trace := snd (history env turns s) |}.

(** [execute], with the turns that run while it awaits [submitOrder]; with no
    such turn this is [execute] above.  The order id is tested before the
    [await] and read again, from the field, after it.  Nothing in [execute]
    follows the second [await], so what runs during that one is left out. *)
Definition executeAmid (env : Collaborators) (turns : list Action)
  (payload : OrderRequestBody) (options : option PaymentRequestOptions) : M unit :=
  let order := {| payment := None; useStoreCredit := useStoreCredit payload |} in
  match payment payload with
  | None => throw (PaymentArgumentInvalidError ["payment"])
  | Some payment' =>
      let methodId := payment_methodId payment' in
      let gatewayId := payment_gatewayId payment' in
      self <- getThis ;;
      match truthy (orderId self) with
      | None => throw PaymentMethodInvalidError
      | Some _ =>
          (if negb (isNonInstantPaymentMethod env methodId)
           then call (SubmitOrder order options) ;;;
                call Suspend ;;;
                elsewhere env turns ;;;
                settled (submitOrder env order options)
           else ret tt) ;;;
          self' <- getThis ;;
          call (SubmitPayment methodId (orderId self') gatewayId) ;;;
          await_settled (submitPayment env methodId (orderId self') gatewayId)
      end
  end.

(** ** What is on the page *)

(** The widgets mounted in the document, as the calls of a trace leave them:
    a button stays mounted, in the container it was rendered into, from
    [render] to [close] or until the content of that container is cleared;
    payment fields stay in their container until its content is cleared.
    Containers are told apart by their selectors. *)
Record Page : Type := {
  buttonsOnPage : list (nat * string);
  mountedFields : list string
}.

(** The handles of the buttons on the page. *)
Definition mountedButtons (p : Page) : list nat := map fst (buttonsOnPage p).

Definition emptyPage : Page := {| buttonsOnPage := []; mountedFields := [] |}.

Definition remove_button (n : nat) (l : list (nat * string)) : list (nat * string) :=
  filter (fun b => negb (Nat.eqb (fst b) n)) l.

(** [innerHTML = ''] on the element of a selector removes what was rendered
    into that selector. *)
Definition clear_container (c : string) (l : list (nat * string)) : list (nat * string) :=
  filter (fun b => negb (String.eqb (snd b) c)) l.

Definition remove_string (x : string) (l : list string) : list string :=
  filter (fun y => negb (String.eqb y x)) l.

Definition apply_event (p : Page) (e : Event) : Page :=
  match e with
  | ButtonRender b c =>
      {| buttonsOnPage := (button_handle b, c) :: buttonsOnPage p;
         mountedFields := mountedFields p |}
  | ButtonClose b =>
      {| buttonsOnPage := remove_button (button_handle b) (buttonsOnPage p);
         mountedFields := mountedFields p |}
  | FieldsRender _ c =>
      {| buttonsOnPage := buttonsOnPage p;
         mountedFields := c :: mountedFields p |}
  | ClearInnerHTML c =>
      {| buttonsOnPage := clear_container c (buttonsOnPage p);
         mountedFields := remove_string c (mountedFields p) |}
  | _ => p
  end.

Definition replay (t : list Event) (p : Page) : Page :=
  fold_left apply_event t p.

(** ** Classifying errors and traces *)



Definition is_suspend (e : Event) : bool :=
  match e with
  | Suspend => true
  | _ => false
  end.

(** The function runs to completion within the turn that called it. *)
Definition synchronous (t : list Event) : bool :=
  negb (existsb is_suspend t).

(** The calls of a trace that load the vendor SDK or put a widget on the page. *)
Definition is_sdk_or_render (e : Event) : bool :=
  match e with
  | GetPayPalApmsSdk _ _ => true
  | SdkButtons _ => true
  | ButtonRender _ _ => true
  | SdkPaymentFields _ => true
  | FieldsRender _ _ => true
  | _ => false
  end.

(** Some collaborator of the strategy answers a call with the exception [e]. *)
Definition raised_by_collaborator (env : Collaborators) (e : Error) : Prop :=
  (exists m g, getPaymentMethodOrThrow (getState env) m g = inl e) \/
  getCartOrThrow (getState env) = inl e \/
  getBillingAddressOrThrow (getState env) = inl e \/
  (exists pm c, getPayPalApmsSdk env pm c = inl e) \/
  (exists provider, createOrder env provider = inl e) \/
  (exists selector, querySelector env selector = inl e) \/
  (exists o opts, submitOrder env o opts = Some e) \/
  (exists m o g, submitPayment env m o g = Some e).


(** ** Frame conditions and error classes of a computation *)

(** [respects I E c]: whatever the store, running [c] leaves a store related
    to the initial one by [I], and an exception of [c] is in [E]. *)
Definition respects {A} (I : Store -> Store -> Prop) (E : Error -> Prop) (c : M A) : Prop :=
  forall s, I s (final (c s)) /\ (forall e, result (c s) = Err e -> E e).

Definition any_store (s s' : Store) : Prop := True.

Definition any_error (e : Error) : Prop := True.

Definition same_heap (s s' : Store) : Prop := heap s' = heap s.

(** An SDK that is on the instance stays on the instance. *)
Definition sdk_stays_loaded (s s' : Store) : Prop :=
  paypalApms (this s) <> None -> paypalApms (this s') <> None.

Definition same_orderId (s s' : Store) : Prop :=
  orderId (this s') = orderId (this s).

(** The order id that some payment method of the checkout state carries in
    its initialization data. *)
Definition orderId_of_initializationData (env : Collaborators) (v : option string) : Prop :=
  exists m g pm d oid,
    getPaymentMethodOrThrow (getState env) m g = inr pm /\
    initializationData pm = Some d /\
    init_orderId d = Some oid /\
    oid <> EmptyString /\
    v = Some oid.

Definition orderId_kept_or_initialized (env : Collaborators) (s s' : Store) : Prop :=
  orderId (this s') = orderId (this s) \/
  orderId_of_initializationData env (orderId (this s')).

(** ** The Adyen script loader *)

Module AdyenV2ScriptLoader.

Record AdyenConfiguration : Type := {
  environment : string;
  clientKey : option string;
  originKey : option string
}.

Record AdyenClient : Type := {
  client_id : nat
}.

Record AdyenHostWindow : Type := {
  AdyenCheckout : option (AdyenConfiguration -> AdyenClient)
}.

(** The script loader acts on the window; the stylesheet loader does not. *)
Record Loaders : Type := {
  loadScript : AdyenHostWindow -> Error + AdyenHostWindow;
  loadStylesheet : option Error
}.

(** Modelled from the spec: [AdyenV2ScriptLoader.load] is not part of the
    sources at hand, only its test-suite is.  The loader "fetches a vendor
    SDK and exposes it from a global handle", and signals the "client
    unavailable" condition "when the vendor SDK failed to attach itself to
    the global scope"; the tests load the JS and the CSS and expect the
    client built by [window.AdyenCheckout]. *)
Definition load (l : Loaders) (configuration : AdyenConfiguration)
  (window : AdyenHostWindow) : Result AdyenClient * AdyenHostWindow :=
  match loadScript l window with
  | inl e => (Err e, window)
  | inr window' =>
      match loadStylesheet l with
      | Some e => (Err e, window')
      | None =>
          match AdyenCheckout window' with
          | None => (Err PaymentMethodClientUnavailableError, window')
          | Some adyenCheckout => (Ok (adyenCheckout configuration), window')
          end
      end
  end.

End AdyenV2ScriptLoader.

(** ** Test fixtures *)

Module Fixtures.

Definition sdk : PayPalApmSdk :=
  {| Buttons := fun _ => {| button_handle := 1; isEligible := true |};
     PaymentFields := fun _ => {| fields_handle := 2 |} |}.

Definition paypalOptionsWithFields : PayPalCommerceAlternativeMethodsPaymentOptions :=
  {| container := "#checkout-payment-continue";
     apmFieldsContainer := Some "#apm-fields";
     apmFieldsStyles := None;
     onError := Some "onError";
     onRenderButton := Some "onRenderButton";
     onInitButton := "onInitButton";
     onValidate := CallsResolve;
     submitForm := "submitForm" |}.

Definition paypalOptionsWithoutFields : PayPalCommerceAlternativeMethodsPaymentOptions :=
  {| container := "#checkout-payment-continue";
     apmFieldsContainer := None;
     apmFieldsStyles := None;
     onError := Some "onError";
     onRenderButton := Some "onRenderButton";
     onInitButton := "onInitButton";
     onValidate := CallsResolve;
     submitForm := "submitForm" |}.

(** Reference 0 holds complete options, reference 1 options whose PayPal
    part lacks [apmFieldsContainer], reference 2 options without
    [methodId]. *)
Definition sampleHeap : Heap :=
  {| initializeOptions := fun r =>
       match r with
       | 0 => {| methodId := Some "sepa";
                 gatewayId := Some "paypalcommercealternativemethods";
                 paypalcommerce := None;
                 paypalcommercealternativemethods := Some 0 |}
       | 1 => {| methodId := Some "sepa";
                 gatewayId := Some "paypalcommercealternativemethods";
                 paypalcommerce := None;
                 paypalcommercealternativemethods := Some 1 |}
       | _ => {| methodId := None;
                 gatewayId := Some "paypalcommercealternativemethods";
                 paypalcommerce := None;
                 paypalcommercealternativemethods := Some 0 |}
       end;
     paypalOptionsAt := fun r =>
       match r with
       | 0 => paypalOptionsWithFields
       | _ => paypalOptionsWithoutFields
       end |}.

Definition samplePaymentMethod (data : option PayPalCommerceInitializationData)
  : PaymentMethod :=
  {| pm_id := "sepa";
     pm_gateway := Some "paypalcommercealternativemethods";
     initializationData := data |}.

(** Collaborators that always succeed; the payment method carries [data]. *)
Definition sampleEnv (data : option PayPalCommerceInitializationData) : Collaborators :=
  {| getState :=
       {| getPaymentMethodOrThrow := fun _ _ => inr (samplePaymentMethod data);
          getCartOrThrow := inr {| currency_code := "EUR" |};
          getBillingAddressOrThrow :=
            inr {| firstName := "Ada"; lastName := "Lovelace";
                   email := Some "ada@example.com" |} |};
     submitOrder := fun _ _ => None;
     submitPayment := fun _ _ _ => None;
     createOrder := fun _ => inr "ORDER-2";
     getValidButtonStyle := fun st => match st with Some d => d | None => [] end;
     getPayPalApmsSdk := fun _ _ => inr sdk;
     querySelector := fun _ => inr true;
     NonInstantAlternativePaymentMethods := ["OXXO"] |}.

Definition withOrderId : PayPalCommerceInitializationData :=
  {| init_orderId := Some "ORDER-1"; shouldRenderFields := None; buttonStyle := None |}.

Definition withFields : PayPalCommerceInitializationData :=
  {| init_orderId := None; shouldRenderFields := Some true; buttonStyle := None |}.

Definition freshStore : Store := {| this := newStrategy; heap := sampleHeap |}.

Definition approvedStore : Store :=
  {| this := set_orderId (Some "ORDER-1") newStrategy; heap := sampleHeap |}.

Definition renderedStore : Store :=
  {| this := set_paypalButton (Some {| button_handle := 1; isEligible := true |})
               newStrategy;
     heap := sampleHeap |}.

Definition payload (methodId : string) : OrderRequestBody :=
  {| payment := Some {| payment_methodId := methodId;
                        payment_gatewayId := Some "paypalcommercealternativemethods" |};
     useStoreCredit := Some false |}.

Definition sampleClosure : PayPalCommerceButtonsOptions :=
  {| fundingSource := "sepa";
     style := [];
     handlers := {| captured_methodId := "sepa";
                    captured_gatewayId := "paypalcommercealternativemethods";
                    captured_paypalOptions := 0;
                    captured_submitForm := "submitForm";
                    captured_onError := Some "onError" |} |}.

(** A script load that resolves without defining [window.AdyenCheckout]. *)
Definition emptyWindow : AdyenV2ScriptLoader.AdyenHostWindow :=
  {| AdyenV2ScriptLoader.AdyenCheckout := None |}.

Definition idleLoaders : AdyenV2ScriptLoader.Loaders :=
  {| AdyenV2ScriptLoader.loadScript := fun _ => inr emptyWindow;
     AdyenV2ScriptLoader.loadStylesheet := None |}.

Definition testConfiguration : AdyenV2ScriptLoader.AdyenConfiguration :=
  {| AdyenV2ScriptLoader.environment := "test";
     AdyenV2ScriptLoader.clientKey := None;
     AdyenV2ScriptLoader.originKey := Some "YOUR_ORIGIN_KEY" |}.

End Fixtures.

(** ** Classes of calls *)

(** [emits allowed c]: whatever the store, [c] makes only calls in [allowed],
    also when it ends with an exception. *)
Definition emits {A} (allowed : Event -> bool) (c : M A) : Prop :=
  forall s, forallb allowed (trace (c s)) = true.

Definition is_submission (e : Event) : bool :=
  match e with
  | SubmitOrder _ _ => true
  | SubmitPayment _ _ _ => true
  | _ => false
  end.

Definition is_loading_indicator (e : Event) : bool :=
  match e with
  | LoadingIndicatorShow _ => true
  | LoadingIndicatorHide => true
  | _ => false
  end.

Definition is_button_close (e : Event) : bool :=
  match e with
  | ButtonClose _ => true
  | _ => false
  end.

Definition is_caller_callback (e : Event) : bool :=
  match e with
  | CallOnInitButton _ => true
  | CallOnValidate _ => true
  | CallSubmitForm _ => true
  | CallOnError _ _ => true
  | CallOnRenderButton _ => true
  | _ => false
  end.

(** The calls [initialize] can make: reading the checkout state, loading the
    SDK, creating and rendering the widgets, [onRenderButton]. *)
Definition is_initialize_call (e : Event) : bool :=
  match e with
  | GetState => true
  | GetPayPalApmsSdk _ _ => true
  | GetValidButtonStyle _ => true
  | SdkButtons _ => true
  | ButtonIsEligible _ => true
  | ButtonRender _ _ => true
  | QuerySelector _ => true
  | ClearInnerHTML _ => true
  | SdkPaymentFields _ => true
  | FieldsRender _ _ => true
  | CallOnRenderButton _ => true
  | Suspend => true
  | _ => false
  end.

(** The calls a vendor callback can make: the loading indicator, the
    callbacks of the caller, and the order pipeline. *)
Definition is_callback_call (e : Event) : bool :=
  match e with
  | LoadingIndicatorShow _ => true
  | LoadingIndicatorHide => true
  | CallOnInitButton _ => true
  | CallOnValidate _ => true
  | CallSubmitForm _ => true
  | CallOnError _ _ => true
  | CreateOrder _ => true
  | SubmitOrder _ _ => true
  | SubmitPayment _ _ _ => true
  | Suspend => true
  | _ => false
  end.

(** The button is on the instance only together with the SDK that made it. *)
Definition button_needs_sdk (t : Strategy) : Prop :=
  paypalButton t <> None -> paypalApms t <> None.


(** ** The objects the strategy hands to the vendor SDK *)

(** The [buttonOptions] literal of [renderButton]. *)
Definition buttonOptionsOf (env : Collaborators) (methodId gatewayId : string)
  (paypalOptions : Ref) (po : PayPalCommerceAlternativeMethodsPaymentOptions)
  (paymentMethod : PaymentMethod) : PayPalCommerceButtonsOptions :=
  {| fundingSource := methodId;
     style := getValidButtonStyle env
                match initializationData paymentMethod with
                | Some d => buttonStyle d
                | None => None
                end;
     handlers :=
       {| captured_methodId := methodId;
          captured_gatewayId := gatewayId;
          captured_paypalOptions := paypalOptions;
          captured_submitForm := submitForm po;
          captured_onError := onError po |} |}.

(** The [fieldsOptions] literal of [renderFields]. *)
Definition fieldsOptionsOf (methodId : string)
  (po : PayPalCommerceAlternativeMethodsPaymentOptions) (billing : BillingAddress)
  : PayPalCommerceFieldsOptions :=
  {| fields_fundingSource := methodId;
     fields_style := match apmFieldsStyles po with
                     | Some st => st
                     | None => []
                     end;
     fields_name := (firstName billing ++ " " ++ lastName billing)%string;
     fields_email := email billing |}.

(** ** The initialization data of a payment method *)

(** [const { orderId, shouldRenderFields } = paymentMethod.initializationData || {}],
    as [initialize] tests the two values. *)
Definition initialOrderId (paymentMethod : PaymentMethod) : option string :=
  truthy match initializationData paymentMethod with
         | Some d => init_orderId d
         | None => None
         end.

Definition wantsFields (paymentMethod : PaymentMethod) : bool :=
  match match initializationData paymentMethod with
        | Some d => shouldRenderFields d
        | None => None
        end with
  | Some true => true
  | _ => false
  end.

(** The instance once [initialize] has stored the SDK and the container id. *)
Definition afterSdkLoad (sdk : PayPalApmSdk)
  (po : PayPalCommerceAlternativeMethodsPaymentOptions) (s : Store) : Store :=
  {| this := set_loadingIndicatorContainer (nth_error (split "#" (container po)) 1)
               (set_paypalApms (Some sdk) (this s));
     heap := heap s |}.

(** The calls of [renderButton] once the button exists. *)
Definition buttonRendering (button : PayPalCommerceButtons)
  (po : PayPalCommerceAlternativeMethodsPaymentOptions) : list Event :=
  if isEligible button
  then match onRenderButton po with
       | Some cb => [CallOnRenderButton cb]
       | None => []
       end ++ [ButtonRender button (container po)]
  else [].

(** ** More fixtures *)

Module Scenarios.

(** An instance after an initialization that loaded the SDK. *)
Definition loadedStore : Store :=
  {| this := set_loadingIndicatorContainer (Some "checkout-payment-continue")
               (set_paypalApms (Some Fixtures.sdk) newStrategy);
     heap := Fixtures.sampleHeap |}.

Definition oxxoClosure : PayPalCommerceButtonsOptions :=
  {| fundingSource := "oxxo";
     style := [];
     handlers := {| captured_methodId := "oxxo";
                    captured_gatewayId := "paypalcommercealternativemethods";
                    captured_paypalOptions := 0;
                    captured_submitForm := "submitForm";
                    captured_onError := Some "onError" |} |}.

Definition approval : ApproveCallbackPayload := {| orderID := "ORDER-3" |}.

(** Collaborators whose checkout state knows no payment method. *)
Definition envWithoutPaymentMethod : Collaborators :=
  {| getState :=
       {| getPaymentMethodOrThrow := fun _ _ => inl (OtherError "MissingDataError");
          getCartOrThrow := inr {| currency_code := "EUR" |};
          getBillingAddressOrThrow :=
            inr {| firstName := "Ada"; lastName := "Lovelace"; email := None |} |};
     submitOrder := fun _ _ => None;
     submitPayment := fun _ _ _ => None;
     createOrder := fun _ => inl (OtherError "RequestError");
     getValidButtonStyle := fun st => match st with Some d => d | None => [] end;
     getPayPalApmsSdk := fun _ _ => inr Fixtures.sdk;
     querySelector := fun _ => inr false;
     NonInstantAlternativePaymentMethods := ["OXXO"] |}.

End Scenarios.

(** * Properties *)

(** ** Small facts used throughout *)

Lemma truthy_Some (x : option string) (v : string) :
  truthy x = Some v -> x = Some v /\ v <> EmptyString.
Proof.
  destruct x as [[|c r]|]; simpl; intros H; inversion H; subst.
  split; [reflexivity | discriminate].
Qed.

Lemma remove_button_not_In (n : nat) (l : list (nat * string)) :
  ~ In n (map fst (remove_button n l)).
Proof.
  unfold remove_button. intros H. apply in_map_iff in H.
  destruct H as [b [Hfst H]]. apply filter_In in H. destruct H as [_ H].
  rewrite Hfst, Nat.eqb_refl in H. discriminate.
Qed.

(** ** Running the monad one step at a time *)

Lemma prefix_nil {A} (o : Outcome A) : prefix [] o = o.
Proof. destruct o; reflexivity. Qed.

Lemma prefix_prefix {A} (t t' : list Event) (o : Outcome A) :
  prefix t (prefix t' o) = prefix (t ++ t') o.
Proof. unfold prefix; cbn. rewrite app_assoc. reflexivity. Qed.

Lemma bind_ret {A B} (a : A) (k : A -> M B) (s : Store) :
  bind (ret a) k s = k a s.
Proof. unfold bind, ret; cbn. apply prefix_nil. Qed.

Lemma bind_throw {A B} (e : Error) (k : A -> M B) (s : Store) :
  bind (throw e) k s = {| result := Err e; final := s; trace := [] |}.
Proof. reflexivity. Qed.

Lemma bind_call {B} (e : Event) (k : unit -> M B) (s : Store) :
  bind (call e) k s = prefix [e] (k tt s).
Proof. reflexivity. Qed.

Lemma bind_getThis {B} (k : Strategy -> M B) (s : Store) :
  bind getThis k s = k (this s) s.
Proof. unfold bind, getThis; cbn. apply prefix_nil. Qed.

Lemma bind_setThis {B} (f : Strategy -> Strategy) (k : unit -> M B) (s : Store) :
  bind (setThis f) k s = k tt {| this := f (this s); heap := heap s |}.
Proof. unfold bind, setThis; cbn. apply prefix_nil. Qed.

Lemma bind_readInitializeOptions {B} (r : Ref) (k : PaymentInitializeOptions -> M B)
  (s : Store) :
  bind (readInitializeOptions r) k s = k (initializeOptions (heap s) r) s.
Proof. unfold bind, readInitializeOptions; cbn. apply prefix_nil. Qed.

Lemma bind_readPaypalOptions {B} (r : Ref)
  (k : PayPalCommerceAlternativeMethodsPaymentOptions -> M B) (s : Store) :
  bind (readPaypalOptions r) k s = k (paypalOptionsAt (heap s) r) s.
Proof. unfold bind, readPaypalOptions; cbn. apply prefix_nil. Qed.

Lemma bind_answer_inr {A B} (a : A) (k : A -> M B) (s : Store) :
  bind (answer (inr a)) k s = k a s.
Proof. apply bind_ret. Qed.

Lemma bind_answer_inl {A B} (e : Error) (k : A -> M B) (s : Store) :
  bind (answer (inl e)) k s = {| result := Err e; final := s; trace := [] |}.
Proof. reflexivity. Qed.

(** ** Rules for [respects] *)

Section Respects.

Variable I : Store -> Store -> Prop.
Variable E : Error -> Prop.
Hypothesis I_refl : forall s, I s s.
Hypothesis I_trans : forall s1 s2 s3, I s1 s2 -> I s2 s3 -> I s1 s3.

Lemma respects_ret {A} (a : A) : respects I E (ret a).
Proof. intros s; cbn; split; [apply I_refl | discriminate]. Qed.

Lemma respects_throw {A} (e : Error) : E e -> respects I E (@throw A e).
Proof.
  intros He s; cbn; split; [apply I_refl |].
  intros e' H; inversion H; subst; exact He.
Qed.

Lemma respects_call (e : Event) : respects I E (call e).
Proof. intros s; cbn; split; [apply I_refl | discriminate]. Qed.

Lemma respects_getThis : respects I E getThis.
Proof. intros s; cbn; split; [apply I_refl | discriminate]. Qed.

Lemma respects_readInitializeOptions (r : Ref) :
  respects I E (readInitializeOptions r).
Proof. intros s; cbn; split; [apply I_refl | discriminate]. Qed.

Lemma respects_readPaypalOptions (r : Ref) : respects I E (readPaypalOptions r).
Proof. intros s; cbn; split; [apply I_refl | discriminate]. Qed.

Lemma respects_setThis (f : Strategy -> Strategy) :
  (forall s, I s {| this := f (this s); heap := heap s |}) ->
  respects I E (setThis f).
Proof. intros H s; cbn; split; [apply H | discriminate]. Qed.

Lemma respects_bind {A B} (c : M A) (k : A -> M B) :
  respects I E c -> (forall a, respects I E (k a)) -> respects I E (bind c k).
Proof.
  intros Hc Hk s. unfold bind. destruct (Hc s) as [Hi He].
  destruct (result (c s)) as [a|e] eqn:Hr; cbn.
  - destruct (Hk a (final (c s))) as [Hi' He'].
    split; [eapply I_trans; eassumption | exact He'].
  - split; [exact Hi |]. intros e' H; inversion H; subst. apply He. reflexivity.
Qed.

Lemma respects_answer {A} (r : Error + A) :
  (forall e, r = inl e -> E e) -> respects I E (answer r).
Proof.
  intros H. destruct r as [e|a]; cbn.
  - apply respects_throw. apply H. reflexivity.
  - apply respects_ret.
Qed.

Lemma respects_settled (r : option Error) :
  (forall e, r = Some e -> E e) -> respects I E (settled r).
Proof.
  intros H. destruct r as [e|]; cbn.
  - apply respects_throw. apply H. reflexivity.
  - apply respects_ret.
Qed.

Lemma respects_await {A} (r : Error + A) :
  (forall e, r = inl e -> E e) -> respects I E (await r).
Proof.
  intros H. unfold await. apply respects_bind.
  - apply respects_call.
  - intros _. apply respects_answer. exact H.
Qed.

Lemma respects_await_settled (r : option Error) :
  (forall e, r = Some e -> E e) -> respects I E (await_settled r).
Proof.
  intros H. unfold await_settled. apply respects_bind.
  - apply respects_call.
  - intros _. apply respects_settled. exact H.
Qed.

(** The continuation of an answer may rely on what was answered. *)
Lemma respects_bind_answer {A B} (r : Error + A) (k : A -> M B) :
  (forall e, r = inl e -> E e) ->
  (forall a, r = inr a -> respects I E (k a)) ->
  respects I E (bind (answer r) k).
Proof.
  intros He Hk. destruct r as [e|a].
  - intros s. cbn. split; [apply I_refl |].
    intros e' H. inversion H; subst. apply He. reflexivity.
  - intros s. rewrite bind_answer_inr. apply Hk. reflexivity.
Qed.

End Respects.

(** One syntax-directed step of a proof of [respects]; what is left for the
    caller are the exceptions thrown and the writes to the fields. *)
Ltac respects_step :=
  lazymatch goal with
  | |- respects _ _ (bind (answer _) _) =>
      apply respects_bind_answer; try assumption; intros ? ?
  | |- respects _ _ (bind _ _) => apply respects_bind; try assumption; [| intros ?]
  | |- respects _ _ (ret _) => apply respects_ret; assumption
  | |- respects _ _ (call _) => apply respects_call; assumption
  | |- respects _ _ getThis => apply respects_getThis; assumption
  | |- respects _ _ (readInitializeOptions _) =>
      apply respects_readInitializeOptions; assumption
  | |- respects _ _ (readPaypalOptions _) =>
      apply respects_readPaypalOptions; assumption
  | |- respects _ _ (answer _) => apply respects_answer; try assumption; intros ? ?
  | |- respects _ _ (await _) => apply respects_await; try assumption; intros ? ?
  | |- respects _ _ (await_settled _) =>
      apply respects_await_settled; try assumption; intros ? ?
  | |- respects _ _ (throw _) => apply respects_throw; try assumption
  | |- respects _ _ (setThis _) => apply respects_setThis; intros ?
  | |- respects _ _ (match ?x with _ => _ end) => destruct x eqn:?
  | |- respects _ _ (if ?x then _ else _) => destruct x eqn:?
  end.

(** ** The private methods, whatever frame and error class they are read in *)

Section Frames.

Variable env : Collaborators.
Variable I : Store -> Store -> Prop.
Variable E : Error -> Prop.
Hypothesis I_refl : forall s, I s s.
Hypothesis I_trans : forall s1 s2 s3, I s1 s2 -> I s2 s3 -> I s1 s3.
Hypothesis I_paypalButton :
  forall s button,
    I s {| this := set_paypalButton (Some button) (this s); heap := heap s |}.
Hypothesis I_paypalApms :
  forall s sdk, I s {| this := set_paypalApms (Some sdk) (this s); heap := heap s |}.
Hypothesis I_loadingIndicatorContainer :
  forall s v, I s {| this := set_loadingIndicatorContainer v (this s); heap := heap s |}.
Hypothesis E_collaborator : forall e, raised_by_collaborator env e -> E e.

Lemma respects_getPaypalAmpsSdkOrThrow :
  E PaymentMethodClientUnavailableError -> respects I E getPaypalAmpsSdkOrThrow.
Proof. intros He. unfold getPaypalAmpsSdkOrThrow. repeat respects_step. Qed.

Lemma respects_toggleLoadingIndicator (isLoading : bool) :
  respects I E (toggleLoadingIndicator isLoading).
Proof. unfold toggleLoadingIndicator. repeat respects_step. Qed.

Lemma respects_renderButton (methodId gatewayId : string) (paypalOptions : Ref) :
  E PaymentMethodClientUnavailableError ->
  respects I E (renderButton env methodId gatewayId paypalOptions).
Proof.
  intros He. unfold renderButton.
  apply respects_bind; try assumption;
    [apply respects_getPaypalAmpsSdkOrThrow; exact He | intros ?].
  repeat respects_step.
  - apply E_collaborator. unfold raised_by_collaborator. eauto.
  - apply I_paypalButton.
Qed.

Lemma respects_renderFields (methodId : string) (paypalOptions : Ref) :
  E PaymentMethodClientUnavailableError ->
  E (InvalidArgumentError missing_fields_container_message) ->
  respects I E (renderFields env methodId paypalOptions).
Proof.
  intros He Hf. unfold renderFields.
  apply respects_bind; try assumption;
    [apply respects_getPaypalAmpsSdkOrThrow; exact He | intros ?].
  repeat respects_step.
  all: apply E_collaborator; unfold raised_by_collaborator; eauto 15.
Qed.

Lemma respects_onCreateOrder (methodId gatewayId : string) (paypalOptions : Ref) :
  respects I E (onCreateOrder env methodId gatewayId paypalOptions).
Proof.
  unfold onCreateOrder.
  repeat first [respects_step | apply respects_toggleLoadingIndicator].
  all: apply E_collaborator; unfold raised_by_collaborator; eauto 15.
Qed.

Lemma respects_handleFailure (error : Error) (onError : option CallbackRef) :
  respects I E (handleFailure error onError).
Proof.
  unfold handleFailure.
  repeat first [respects_step | apply respects_toggleLoadingIndicator].
Qed.

Lemma respects_handleApprove (data : ApproveCallbackPayload) (submitForm : CallbackRef) :
  (forall s v, I s {| this := set_orderId (Some v) (this s); heap := heap s |}) ->
  respects I E (handleApprove data submitForm).
Proof. intros Hw. unfold handleApprove. repeat respects_step. apply Hw. Qed.

(** The handlers wired into the button, the approval handler apart. *)
Lemma respects_invoke (o : PayPalCommerceButtonsOptions) (cb : ButtonCallback) :
  (forall data, cb <> CbOnApprove data) ->
  respects I E (invoke env o cb).
Proof.
  intros Hcb. destruct cb; unfold invoke.
  - repeat respects_step.
  - respects_step; [apply respects_onCreateOrder | respects_step].
  - exfalso. apply (Hcb data). reflexivity.
  - apply respects_toggleLoadingIndicator.
  - apply respects_handleFailure.
  - repeat respects_step.
Qed.

Lemma respects_initialize (options : Ref) :
  E PaymentMethodClientUnavailableError ->
  E (InvalidArgumentError missing_fields_container_message) ->
  (forall argument, E (InvalidArgumentError (missing_argument_message argument))) ->
  (forall s m g pm d oid,
      getPaymentMethodOrThrow (getState env) m g = inr pm ->
      initializationData pm = Some d ->
      init_orderId d = Some oid ->
      oid <> EmptyString ->
      I s {| this := set_orderId (Some oid) (this s); heap := heap s |}) ->
  respects I E (initialize env options).
Proof.
  intros Hc Hf Hg Hw. unfold initialize.
  repeat first [respects_step
               | apply respects_renderButton; assumption
               | apply respects_renderFields; assumption].
  all: try solve [apply Hg | apply I_paypalApms | apply I_loadingIndicatorContainer].
  all: try solve [apply E_collaborator; unfold raised_by_collaborator; eauto 15].
  match goal with
  | H : truthy _ = Some ?oid |- _ =>
      destruct (truthy_Some _ _ H) as [Hd Hne]
  end.
  match goal with
  | H : _ = inr ?pm |- _ =>
      destruct (initializationData pm) as [d|] eqn:Hdata; [| discriminate]
  end.
  eapply Hw; eauto.
Qed.

Lemma respects_execute (payload : OrderRequestBody)
  (options : option PaymentRequestOptions) :
  E (PaymentArgumentInvalidError ["payment"]) ->
  E PaymentMethodInvalidError ->
  respects I E (execute env payload options).
Proof.
  intros Hp Hm. unfold execute. repeat respects_step.
  all: apply E_collaborator; unfold raised_by_collaborator; eauto 15.
Qed.

Lemma respects_finalize :
  E OrderFinalizationNotRequiredError -> respects I E finalize.
Proof. intros H. unfold finalize. respects_step. Qed.

Lemma respects_deinitialize :
  (forall s, I s {| this := set_orderId None (this s); heap := heap s |}) ->
  respects I E deinitialize.
Proof. intros Hw. unfold deinitialize. repeat respects_step. apply Hw. Qed.

End Frames.

(** ** The frames and error classes used below *)

Create HintDb frames.

Lemma any_store_trans (s1 s2 s3 : Store) :
  any_store s1 s2 -> any_store s2 s3 -> any_store s1 s3.
Proof. intros _ _. exact Logic.I. Qed.

Lemma same_heap_trans (s1 s2 s3 : Store) :
  same_heap s1 s2 -> same_heap s2 s3 -> same_heap s1 s3.
Proof. unfold same_heap. congruence. Qed.

Lemma sdk_stays_loaded_trans (s1 s2 s3 : Store) :
  sdk_stays_loaded s1 s2 -> sdk_stays_loaded s2 s3 -> sdk_stays_loaded s1 s3.
Proof. unfold sdk_stays_loaded. auto. Qed.

Lemma same_orderId_trans (s1 s2 s3 : Store) :
  same_orderId s1 s2 -> same_orderId s2 s3 -> same_orderId s1 s3.
Proof. unfold same_orderId. congruence. Qed.

Lemma orderId_kept_or_initialized_refl (env : Collaborators) (s : Store) :
  orderId_kept_or_initialized env s s.
Proof. left. reflexivity. Qed.

Lemma orderId_kept_or_initialized_trans (env : Collaborators) (s1 s2 s3 : Store) :
  orderId_kept_or_initialized env s1 s2 ->
  orderId_kept_or_initialized env s2 s3 ->
  orderId_kept_or_initialized env s1 s3.
Proof.
  unfold orderId_kept_or_initialized. intros [H12|H12] [H23|H23].
  - left. congruence.
  - right. exact H23.
  - right. rewrite H23. exact H12.
  - right. exact H23.
Qed.

#[local] Hint Resolve any_store_trans same_heap_trans same_orderId_trans
  sdk_stays_loaded_trans
  orderId_kept_or_initialized_refl orderId_kept_or_initialized_trans : frames.

(** Discharges the side conditions of the rules of [Frames]. *)
Ltac frame_auto :=
  intros;
  try solve [ exact Logic.I
            | reflexivity
            | left; reflexivity
            | intros ?; assumption
            | intros ?; discriminate
            | eauto with frames ].

(** ** Execute *)

(** What [execute] does once a payment and an order id are there. *)
Lemma execute_outcome (env : Collaborators) (s : Store) (payload : OrderRequestBody)
  (options : option PaymentRequestOptions) (p : OrderPaymentRequestBody) (oid : string) :
  payment payload = Some p ->
  truthy (orderId (this s)) = Some oid ->
  let order := {| payment := None; useStoreCredit := useStoreCredit payload |} in
  let mid := payment_methodId p in
  let gid := payment_gatewayId p in
  let submitted :=
    if isNonInstantPaymentMethod env mid then None
    else submitOrder env order options in
  execute env payload options s =
  {| result := match submitted with
               | Some e => Err e
               | None => match submitPayment env mid (Some oid) gid with
                         | Some e => Err e
                         | None => Ok tt
                         end
               end;
     final := s;
     trace := (if isNonInstantPaymentMethod env mid then []
               else [SubmitOrder order options; Suspend])
              ++ match submitted with
                 | Some _ => []
                 | None => [SubmitPayment mid (Some oid) gid; Suspend]
                 end |}.
Proof.
  intros Hp Hoid order mid gid submitted.
  destruct (truthy_Some _ _ Hoid) as [Hstored _].
  subst submitted order mid gid. unfold execute. rewrite Hp.
  rewrite bind_getThis, Hoid.
  destruct (isNonInstantPaymentMethod env (payment_methodId p)); cbn [negb].
  - rewrite bind_ret, bind_getThis, Hstored, bind_call.
    unfold await_settled. rewrite bind_call.
    destruct (submitPayment env _ _ _); reflexivity.
  - unfold await_settled, bind, call, settled, ret, throw, getThis; cbn.
    destruct (submitOrder env _ options); cbn; [reflexivity|].
    rewrite Hstored. destruct (submitPayment env _ _ _); reflexivity.
Qed.

(** ** Initialize *)

Lemma initialize_missing_methodId (env : Collaborators) (s : Store) (r : Ref) :
  truthy (methodId (initializeOptions (heap s) r)) = None ->
  initialize env r s =
  {| result := Err (InvalidArgumentError (missing_argument_message "options.methodId"));
     final := s; trace := [] |}.
Proof.
  intros H. unfold initialize. rewrite bind_readInitializeOptions, H. reflexivity.
Qed.

Lemma initialize_missing_gatewayId (env : Collaborators) (s : Store) (r : Ref) (m : string) :
  truthy (methodId (initializeOptions (heap s) r)) = Some m ->
  truthy (gatewayId (initializeOptions (heap s) r)) = None ->
  initialize env r s =
  {| result := Err (InvalidArgumentError (missing_argument_message "options.gatewayId"));
     final := s; trace := [] |}.
Proof.
  intros H1 H2. unfold initialize. rewrite bind_readInitializeOptions, H1, H2.
  reflexivity.
Qed.

Lemma initialize_missing_paypalOptions (env : Collaborators) (s : Store) (r : Ref)
  (m g : string) :
  truthy (methodId (initializeOptions (heap s) r)) = Some m ->
  truthy (gatewayId (initializeOptions (heap s) r)) = Some g ->
  paypalcommercealternativemethods (initializeOptions (heap s) r) = None ->
  paypalcommerce (initializeOptions (heap s) r) = None ->
  initialize env r s =
  {| result := Err (InvalidArgumentError
                      (missing_argument_message "options.paypalcommercealternativemethods"));
     final := s; trace := [] |}.
Proof.
  intros H1 H2 H3 H4. unfold initialize.
  rewrite bind_readInitializeOptions, H1, H2, H3, H4. reflexivity.
Qed.

(** C2, as the spec has it, fails: with [methodId], [gatewayId] and the PayPal
    options all there, [initialize] still raises an [InvalidArgumentError]
    when the payment method asks for fields and the options name no container
    for them. *)
Lemma initialize_invalid_argument_with_all_options :
  let o := initializeOptions Fixtures.sampleHeap 1 in
  methodId o = Some "sepa" /\
  gatewayId o = Some "paypalcommercealternativemethods" /\
  paypalcommercealternativemethods o = Some 1 /\
  result (initialize (Fixtures.sampleEnv (Some Fixtures.withFields)) 1
            Fixtures.freshStore)
  = Err (InvalidArgumentError missing_fields_container_message).
Proof. cbv zeta. repeat split. Qed.

(** ** Finalize *)

(** C10: [finalize] rejects with [OrderFinalizationNotRequiredError] in every
    store, in particular in every store that a sequence of operations and
    vendor callbacks leads to, calls nothing and changes nothing. *)
Theorem finalize_always_rejects :
  forall (env : Collaborators),
    (forall s : Store,
        perform env Finalize s =
        {| result := Err OrderFinalizationNotRequiredError; final := s; trace := [] |}) /\
    (forall (actions : list Action) (s0 : Store),
        let s := fst (history env actions s0) in
        result (finalize s) = Err OrderFinalizationNotRequiredError /\
        final (finalize s) = s /\
        trace (finalize s) = []).
Proof.
  intros env. split.
  - intros s. reflexivity.
  - intros actions s0 s. repeat split.
Qed.

(** ** Deinitialize *)

(** C4, as the code has it: [deinitialize] always resolves; it clears the
    order id and closes the button handle that the instance holds, if it
    holds one, so that this button is no longer mounted; it calls nothing
    else, keeps the other three fields, and leaves payment fields on the page
    as they were. *)
Theorem deinitialize_clears_order_id_and_closes_button :
  forall (s : Store) (page : Page),
    let out := deinitialize s in
    result out = Ok tt /\
    final out = {| this := set_orderId None (this s); heap := heap s |} /\
    orderId (this (final out)) = None /\
    trace out = match paypalButton (this s) with
                | Some button => [ButtonClose button]
                | None => []
                end /\
    (forall button, paypalButton (this s) = Some button ->
       ~ In (button_handle button) (mountedButtons (replay (trace out) page))) /\
    mountedFields (replay (trace out) page) = mountedFields page.
Proof.
  intros s page out. subst out. unfold deinitialize.
  rewrite bind_setThis, bind_getThis. cbn [this set_orderId paypalButton].
  destruct (paypalButton (this s)) as [button|] eqn:Hb; cbn.
  - repeat split. intros b Hb'. inversion Hb'; subst. apply remove_button_not_In.
  - repeat split. intros b Hb'. discriminate Hb'.
Qed.

Lemma deinitialize_clears_order_id_and_closes_button_witness :
  ~ In 1 (mountedButtons
            (replay (trace (deinitialize Fixtures.renderedStore))
               {| buttonsOnPage := [(1, "#checkout-payment-continue")];
                  mountedFields := [] |})).
Proof.
  exact (proj1 (proj2 (proj2 (proj2 (proj2
           (deinitialize_clears_order_id_and_closes_button Fixtures.renderedStore
              {| buttonsOnPage := [(1, "#checkout-payment-continue")];
                 mountedFields := [] |})))))
           {| button_handle := 1; isEligible := true |} eq_refl).
Defined.

(** C4, as the spec has it, fails: after an initialization that rendered
    payment fields, [deinitialize] resolves and closes the button, yet the
    fields are still mounted, and the instance holds no handle to them. *)
Lemma fields_stay_mounted_after_deinitialize :
  let env := Fixtures.sampleEnv (Some Fixtures.withFields) in
  let initialized := initialize env 0 Fixtures.freshStore in
  let deinitialized := deinitialize (final initialized) in
  let page := replay (trace initialized ++ trace deinitialized) emptyPage in
  result initialized = Ok tt /\
  result deinitialized = Ok tt /\
  mountedButtons page = [] /\
  mountedFields page = ["#apm-fields"].
Proof. cbv zeta. repeat split. Qed.

(** ** Errors of the public operations *)


(** ** The order id *)

(** C5, as the code has it: the [orderId] field holds at most one string; an
    action either keeps it, or it is [initialize] storing the non-empty order
    id of the initialization data, or the approval callback storing the
    approved one, or [deinitialize] clearing it.  [execute] and [finalize]
    keep it. *)
Theorem orderId_written_by_initialize_approve_deinitialize :
  forall (env : Collaborators) (a : Action) (s : Store),
    let s' := final (act env a s) in
    match a with
    | Public (Initialize _) =>
        orderId (this s') = orderId (this s) \/
        orderId_of_initializationData env (orderId (this s'))
    | Public (Execute _ _) => orderId (this s') = orderId (this s)
    | Public Finalize => orderId (this s') = orderId (this s)
    | Public Deinitialize => orderId (this s') = None
    | Vendor _ (CbOnApprove data) => orderId (this s') = Some (orderID data)
    | Vendor _ _ => orderId (this s') = orderId (this s)
    end.
Proof.
  intros env a s.
  assert (Hvendor : forall o cb, (forall data, cb <> CbOnApprove data) ->
                                 respects same_orderId any_error (invoke env o cb)).
  { intros o cb Hcb. apply respects_invoke; frame_auto. }
  destruct a as [[r | payload options | | ] | o cb]; cbn zeta; cbn [act perform].
  - assert (H : respects (orderId_kept_or_initialized env) any_error (initialize env r)).
    { apply respects_initialize; frame_auto.
      right. cbn. unfold orderId_of_initializationData. eauto 10. }
    exact (proj1 (H s)).
  - assert (H : respects same_orderId any_error (execute env payload options)).
    { apply respects_execute; frame_auto. }
    exact (proj1 (H s)).
  - reflexivity.
  - unfold deinitialize. rewrite bind_setThis, bind_getThis.
    cbn [this set_orderId paypalButton]. destruct (paypalButton (this s)); reflexivity.
  - destruct cb;
      try (refine (proj1 (Hvendor o _ _ s)); intros data; discriminate).
    reflexivity.
Qed.

(** C5, as the spec has it, fails: a completed [execute] does not release the
    order id. *)
Lemma execute_keeps_order_id :
  let out := execute (Fixtures.sampleEnv None) (Fixtures.payload "sepa") None
               Fixtures.approvedStore in
  result out = Ok tt /\
  orderId (this (final out)) = Some "ORDER-1".
Proof. cbv zeta. split; reflexivity. Qed.

(** ** The option objects *)

Lemma act_same_heap (env : Collaborators) (a : Action) :
  respects same_heap any_error (act env a).
Proof.
  destruct a as [[r | payload options | | ] | o cb]; cbn [act perform].
  - apply respects_initialize; frame_auto.
  - apply respects_execute; frame_auto.
  - apply respects_finalize; frame_auto.
  - apply respects_deinitialize; frame_auto.
  - assert (Hothers : (forall data, cb <> CbOnApprove data) ->
                      respects same_heap any_error (invoke env o cb)).
    { intros Hcb. apply respects_invoke; frame_auto. }
    destruct cb; try (apply Hothers; intros data; discriminate).
    cbn [invoke]. apply respects_handleApprove; frame_auto.
Qed.

(** C7: no public operation and no vendor callback writes to an option object
    handed to [initialize]: after any sequence of them, every
    [PaymentInitializeOptions] and every PayPal options object reads as it
    did before. *)
Theorem option_objects_are_never_written :
  forall (env : Collaborators) (actions : list Action) (s : Store),
    heap (fst (history env actions s)) = heap s /\
    (forall r : Ref,
        initializeOptions (heap (fst (history env actions s))) r
        = initializeOptions (heap s) r /\
        paypalOptionsAt (heap (fst (history env actions s))) r
        = paypalOptionsAt (heap s) r).
Proof.
  intros env actions.
  assert (Hheap : forall s, heap (fst (history env actions s)) = heap s).
  { induction actions as [|a rest IH]; intros s; cbn [history fst].
    - reflexivity.
    - specialize (IH (final (act env a s))).
      destruct (history env rest (final (act env a s))) as [s' t'] eqn:Hrest.
      cbn [fst] in *. rewrite IH. exact (proj1 (act_same_heap env a s)). }
  intros s. split; [apply Hheap |].
  intros r. rewrite Hheap. split; reflexivity.
Qed.

(** ** The vendor callbacks *)

(** C8: of the six handlers wired into the button options only the approval
    handler assigns [orderId]; it does so in a function without suspension
    point, so that the write and the call of [submitForm] happen within the
    turn of the event loop that runs the handler. *)
Theorem only_the_approval_handler_writes_orderId :
  forall (env : Collaborators) (o : PayPalCommerceButtonsOptions)
         (cb : ButtonCallback) (s : Store),
    let out := invoke env o cb s in
    match cb with
    | CbOnApprove data =>
        orderId (this (final out)) = Some (orderID data) /\
        trace out = [CallSubmitForm (captured_submitForm (handlers o))] /\
        synchronous (trace out) = true
    | _ => orderId (this (final out)) = orderId (this s)
    end.
Proof.
  intros env o cb s.
  assert (Hothers : (forall data, cb <> CbOnApprove data) ->
                    respects same_orderId any_error (invoke env o cb)).
  { intros Hcb. apply respects_invoke; frame_auto. }
  destruct cb; cbn zeta;
    try (refine (proj1 (Hothers _ s)); intros data; discriminate).
  repeat split.
Qed.

(** ** The unavailable client *)

Lemma act_sdk_stays_loaded (env : Collaborators) (a : Action) :
  respects sdk_stays_loaded any_error (act env a).
Proof.
  destruct a as [[r | payload options | | ] | o cb]; cbn [act perform].
  - apply respects_initialize; frame_auto.
  - apply respects_execute; frame_auto.
  - apply respects_finalize; frame_auto.
  - apply respects_deinitialize; frame_auto.
  - assert (Hothers : (forall data, cb <> CbOnApprove data) ->
                      respects sdk_stays_loaded any_error (invoke env o cb)).
    { intros Hcb. apply respects_invoke; frame_auto. }
    destruct cb; try (apply Hothers; intros data; discriminate).
    cbn [invoke]. apply respects_handleApprove; frame_auto.
Qed.

(** C6: [AdyenV2ScriptLoader.load], once the script and the stylesheet are
    loaded, rejects with [PaymentMethodClientUnavailableError] exactly when
    [window.AdyenCheckout] is unset, and returns the client built from it
    otherwise; the SDK accessor of the strategy throws that error exactly
    when [paypalApms] is unset, and returns the SDK otherwise; and no
    operation or callback unsets [paypalApms], so that unset means never
    loaded. *)
Theorem client_unavailable_exactly_when_sdk_is_missing :
  (forall (l : AdyenV2ScriptLoader.Loaders)
          (configuration : AdyenV2ScriptLoader.AdyenConfiguration)
          (window window' : AdyenV2ScriptLoader.AdyenHostWindow),
      AdyenV2ScriptLoader.loadScript l window = inr window' ->
      AdyenV2ScriptLoader.loadStylesheet l = None ->
      (fst (AdyenV2ScriptLoader.load l configuration window)
       = Err PaymentMethodClientUnavailableError
       <-> AdyenV2ScriptLoader.AdyenCheckout window' = None) /\
      (forall adyenCheckout,
          AdyenV2ScriptLoader.AdyenCheckout window' = Some adyenCheckout ->
          fst (AdyenV2ScriptLoader.load l configuration window)
          = Ok (adyenCheckout configuration))) /\
  (forall s : Store,
      (result (getPaypalAmpsSdkOrThrow s) = Err PaymentMethodClientUnavailableError
       <-> paypalApms (this s) = None) /\
      (forall sdk, paypalApms (this s) = Some sdk ->
                   result (getPaypalAmpsSdkOrThrow s) = Ok sdk) /\
      final (getPaypalAmpsSdkOrThrow s) = s /\
      trace (getPaypalAmpsSdkOrThrow s) = []) /\
  (forall (env : Collaborators) (actions : list Action) (s : Store),
      paypalApms (this s) <> None ->
      paypalApms (this (fst (history env actions s))) <> None).
Proof.
  split; [| split].
  - intros l configuration window window' Hscript Hstyle.
    unfold AdyenV2ScriptLoader.load. rewrite Hscript, Hstyle.
    destruct (AdyenV2ScriptLoader.AdyenCheckout window') as [ctor|]; cbn.
    + split; [split; discriminate |].
      intros ctor' H. inversion H; subst. reflexivity.
    + split; [split; reflexivity |]. intros ctor' H. discriminate H.
  - intros s. unfold getPaypalAmpsSdkOrThrow. rewrite bind_getThis.
    destruct (paypalApms (this s)) as [sdk|]; cbn.
    + repeat split; try discriminate.
      intros sdk' H. inversion H; subst. reflexivity.
    + repeat split. intros sdk' H. discriminate H.
  - intros env actions.
    induction actions as [|a rest IH]; intros s Hs; cbn [history fst].
    + exact Hs.
    + specialize (IH (final (act env a s)) (proj1 (act_sdk_stays_loaded env a s) Hs)).
      destruct (history env rest (final (act env a s))) as [s' t'].
      exact IH.
Qed.

Lemma client_unavailable_exactly_when_sdk_is_missing_witness :
  fst (AdyenV2ScriptLoader.load Fixtures.idleLoaders Fixtures.testConfiguration
         Fixtures.emptyWindow)
  = Err PaymentMethodClientUnavailableError.
Proof.
  exact (proj2 (proj1 (proj1 client_unavailable_exactly_when_sdk_is_missing
                         Fixtures.idleLoaders Fixtures.testConfiguration
                         Fixtures.emptyWindow Fixtures.emptyWindow eq_refl eq_refl))
           eq_refl).
Defined.

(** ** The model at work on the fixtures *)

Example split_container :
  nth_error (split "#" "#checkout-payment-continue") 1 = Some "checkout-payment-continue".
Proof. reflexivity. Qed.

Example split_without_hash : nth_error (split "#" "container") 1 = None.
Proof. reflexivity. Qed.

Example oxxo_is_non_instant :
  isNonInstantPaymentMethod (Fixtures.sampleEnv None) "oxxo" = true /\
  isNonInstantPaymentMethod (Fixtures.sampleEnv None) "sepa" = false.
Proof. split; reflexivity. Qed.

Example initialize_renders_button_and_fields :
  let out := initialize (Fixtures.sampleEnv (Some Fixtures.withFields)) 0
               Fixtures.freshStore in
  result out = Ok tt /\
  loadingIndicatorContainer (this (final out)) = Some "checkout-payment-continue" /\
  orderId (this (final out)) = None /\
  paypalButton (this (final out)) = Some {| button_handle := 1; isEligible := true |} /\
  filter is_sdk_or_render (trace out) =
  [GetPayPalApmsSdk (Fixtures.samplePaymentMethod (Some Fixtures.withFields)) "EUR";
   SdkButtons Fixtures.sampleClosure;
   ButtonRender {| button_handle := 1; isEligible := true |} "#checkout-payment-continue";
   SdkPaymentFields {| fields_fundingSource := "sepa"; fields_style := [];
                       fields_name := "Ada Lovelace";
                       fields_email := Some "ada@example.com" |};
   FieldsRender {| fields_handle := 2 |} "#apm-fields"].
Proof. cbv zeta. repeat split. Qed.

Example create_order_for_oxxo :
  let o := {| fundingSource := "oxxo"; style := [];
              handlers := {| captured_methodId := "oxxo";
                             captured_gatewayId := "paypalcommercealternativemethods";
                             captured_paypalOptions := 0;
                             captured_submitForm := "submitForm";
                             captured_onError := None |} |} in
  trace (invoke (Fixtures.sampleEnv None) o CbCreateOrder Fixtures.freshStore) =
  [CallOnValidate CallsResolve; LoadingIndicatorHide; Suspend;
   CreateOrder "paypalcommercealternativemethodscheckout"; Suspend;
   SubmitOrder {| payment := None; useStoreCredit := Some false |}
     (Some {| params := Some {| params_methodId := "oxxo";
                                params_gatewayId := "paypalcommercealternativemethods" |} |});
   Suspend;
   SubmitPayment "oxxo" (Some "ORDER-2") (Some "paypalcommercealternativemethods");
   Suspend].
Proof. reflexivity. Qed.

Example execute_without_payment :
  result (execute (Fixtures.sampleEnv None)
            {| payment := None; useStoreCredit := None |} None Fixtures.approvedStore)
  = Err (PaymentArgumentInvalidError ["payment"]).
Proof. reflexivity. Qed.


(** * Further properties of the strategy *)

(** ** Outcomes of the private methods *)

Lemma bind_ok {A B} (c : M A) (k : A -> M B) (s s' : Store) (a : A) (t : list Event) :
  c s = {| result := Ok a; final := s'; trace := t |} ->
  bind c k s = prefix t (k a s').
Proof. intros H. unfold bind. rewrite H. reflexivity. Qed.

Lemma bind_err {A B} (c : M A) (k : A -> M B) (s s' : Store) (e : Error)
  (t : list Event) :
  c s = {| result := Err e; final := s'; trace := t |} ->
  bind c k s = {| result := Err e; final := s'; trace := t |}.
Proof. intros H. unfold bind. rewrite H. reflexivity. Qed.

Lemma prefix_record {A} (t t' : list Event) (r : Result A) (s : Store) :
  prefix t {| result := r; final := s; trace := t' |}
  = {| result := r; final := s; trace := t ++ t' |}.
Proof. reflexivity. Qed.

Lemma getPaypalAmpsSdkOrThrow_loaded (s : Store) (sdk : PayPalApmSdk) :
  paypalApms (this s) = Some sdk ->
  getPaypalAmpsSdkOrThrow s = {| result := Ok sdk; final := s; trace := [] |}.
Proof.
  intros H. unfold getPaypalAmpsSdkOrThrow. rewrite bind_getThis, H. reflexivity.
Qed.

Lemma getPaypalAmpsSdkOrThrow_missing (s : Store) :
  paypalApms (this s) = None ->
  getPaypalAmpsSdkOrThrow s =
  {| result := Err PaymentMethodClientUnavailableError; final := s; trace := [] |}.
Proof.
  intros H. unfold getPaypalAmpsSdkOrThrow. rewrite bind_getThis, H. reflexivity.
Qed.

Lemma toggleLoadingIndicator_outcome (isLoading : bool) (s : Store) :
  toggleLoadingIndicator isLoading s =
  {| result := Ok tt; final := s;
     trace := [match isLoading, truthy (loadingIndicatorContainer (this s)) with
               | true, Some c => LoadingIndicatorShow c
               | _, _ => LoadingIndicatorHide
               end] |}.
Proof.
  unfold toggleLoadingIndicator. rewrite bind_getThis.
  destruct isLoading, (truthy (loadingIndicatorContainer (this s))); reflexivity.
Qed.

Lemma renderButton_outcome (env : Collaborators) (m g : string) (p : Ref) (s : Store)
  (sdk : PayPalApmSdk) (pm : PaymentMethod) :
  paypalApms (this s) = Some sdk ->
  getPaymentMethodOrThrow (getState env) m g = inr pm ->
  let po := paypalOptionsAt (heap s) p in
  let options := buttonOptionsOf env m g p po pm in
  let button := Buttons sdk options in
  renderButton env m g p s =
  {| result := Ok tt;
     final := {| this := set_paypalButton (Some button) (this s); heap := heap s |};
     trace := [GetState;
               GetValidButtonStyle match initializationData pm with
                                   | Some d => buttonStyle d
                                   | None => None
                                   end;
               SdkButtons options;
               ButtonIsEligible button]
              ++ (if isEligible button
                  then match onRenderButton po with
                       | Some cb => [CallOnRenderButton cb]
                       | None => []
                       end ++ [ButtonRender button (container po)]
                  else []) |}.
Proof.
  intros Hsdk Hpm po options button. unfold renderButton.
  rewrite (bind_ok _ _ _ _ _ _ (getPaypalAmpsSdkOrThrow_loaded s sdk Hsdk)), prefix_nil.
  rewrite bind_call, Hpm, bind_answer_inr, bind_readPaypalOptions, bind_call.
  subst po options button. unfold buttonOptionsOf, bind, call, setThis, ret; cbn.
  match goal with
  | |- context [isEligible ?b] => destruct (isEligible b)
  end; cbn; [| reflexivity].
  destruct (onRenderButton (paypalOptionsAt (heap s) p)); reflexivity.
Qed.

Lemma renderFields_outcome (env : Collaborators) (m : string) (p : Ref) (s : Store)
  (sdk : PayPalApmSdk) (billing : BillingAddress) (c : string) (found : bool) :
  paypalApms (this s) = Some sdk ->
  getBillingAddressOrThrow (getState env) = inr billing ->
  truthy (apmFieldsContainer (paypalOptionsAt (heap s) p)) = Some c ->
  querySelector env c = inr found ->
  let options := fieldsOptionsOf m (paypalOptionsAt (heap s) p) billing in
  renderFields env m p s =
  {| result := Ok tt;
     final := s;
     trace := [GetState; QuerySelector c]
              ++ (if found then [ClearInnerHTML c] else [])
              ++ [SdkPaymentFields options; FieldsRender (PaymentFields sdk options) c] |}.
Proof.
  intros Hsdk Hbilling Hc Hfound options. unfold renderFields.
  rewrite (bind_ok _ _ _ _ _ _ (getPaypalAmpsSdkOrThrow_loaded s sdk Hsdk)), prefix_nil.
  rewrite bind_call, Hbilling, bind_answer_inr, bind_readPaypalOptions, Hc.
  rewrite bind_call, Hfound, bind_answer_inr.
  subst options. unfold fieldsOptionsOf, bind, call, ret; cbn.
  destruct found; reflexivity.
Qed.

Lemma renderFields_without_container (env : Collaborators) (m : string) (p : Ref)
  (s : Store) (sdk : PayPalApmSdk) (billing : BillingAddress) :
  paypalApms (this s) = Some sdk ->
  getBillingAddressOrThrow (getState env) = inr billing ->
  truthy (apmFieldsContainer (paypalOptionsAt (heap s) p)) = None ->
  renderFields env m p s =
  {| result := Err (InvalidArgumentError missing_fields_container_message);
     final := s;
     trace := [GetState] |}.
Proof.
  intros Hsdk Hbilling Hc. unfold renderFields.
  rewrite (bind_ok _ _ _ _ _ _ (getPaypalAmpsSdkOrThrow_loaded s sdk Hsdk)), prefix_nil.
  rewrite bind_call, Hbilling, bind_answer_inr, bind_readPaypalOptions, Hc.
  reflexivity.
Qed.


Lemma renderFields_selector_invalid (env : Collaborators) (m : string) (p : Ref)
  (s : Store) (sdk : PayPalApmSdk) (billing : BillingAddress) (c : string) (e : Error) :
  paypalApms (this s) = Some sdk ->
  getBillingAddressOrThrow (getState env) = inr billing ->
  truthy (apmFieldsContainer (paypalOptionsAt (heap s) p)) = Some c ->
  querySelector env c = inl e ->
  renderFields env m p s =
  {| result := Err e; final := s; trace := [GetState; QuerySelector c] |}.
Proof.
  intros Hsdk Hbilling Hc Hsel. unfold renderFields.
  rewrite (bind_ok _ _ _ _ _ _ (getPaypalAmpsSdkOrThrow_loaded s sdk Hsdk)), prefix_nil.
  rewrite bind_call, Hbilling, bind_answer_inr, bind_readPaypalOptions, Hc.
  rewrite bind_call, Hsel. reflexivity.
Qed.

(** The calls of [onCreateOrder] up to the answer of [createOrder]. *)
Lemma onCreateOrder_outcome (env : Collaborators) (m g : string) (p : Ref) (s : Store) :
  let po := paypalOptionsAt (heap s) p in
  let provider := "paypalcommercealternativemethodscheckout" in
  let order := {| payment := None; useStoreCredit := Some false |} in
  let options :=
    Some {| params := Some {| params_methodId := m; params_gatewayId := g |} |} in
  let validation :=
    CallOnValidate (onValidate po)
    :: match onValidate po with
       | CallsResolve =>
           [match truthy (loadingIndicatorContainer (this s)) with
            | Some c => LoadingIndicatorShow c
            | None => LoadingIndicatorHide
            end]
       | _ => []
       end
    ++ [Suspend; CreateOrder provider; Suspend] in
  onCreateOrder env m g p s =
  match createOrder env provider with
  | inl e => {| result := Err e; final := s; trace := validation |}
  | inr created =>
      if isNonInstantPaymentMethod env m then
        match submitOrder env order options with
        | Some e =>
            {| result := Err e; final := s;
               trace := validation ++ [SubmitOrder order options; Suspend] |}
        | None =>
            {| result := match submitPayment env m (Some created) (Some g) with
                         | Some e => Err e
                         | None => Ok created
                         end;
               final := s;
               trace := validation
                        ++ [SubmitOrder order options; Suspend;
                            SubmitPayment m (Some created) (Some g); Suspend] |}
        end
      else {| result := Ok created; final := s; trace := validation |}
  end.
Proof.
  intros po provider order options validation.
  subst validation po provider order options.
  unfold onCreateOrder. rewrite bind_readPaypalOptions, bind_call.
  assert (Hv : forall B (k : unit -> M B),
             bind match onValidate (paypalOptionsAt (heap s) p) with
                  | CallsResolve => toggleLoadingIndicator true
                  | CallsReject => ret tt
                  | CallsNeither => ret tt
                  end k s
             = prefix match onValidate (paypalOptionsAt (heap s) p) with
                      | CallsResolve =>
                          [match truthy (loadingIndicatorContainer (this s)) with
                           | Some c => LoadingIndicatorShow c
                           | None => LoadingIndicatorHide
                           end]
                      | _ => []
                      end (k tt s)).
  { intros B k. destruct (onValidate (paypalOptionsAt (heap s) p)).
    - rewrite (bind_ok _ _ _ _ _ _ (toggleLoadingIndicator_outcome true s)).
      reflexivity.
    - rewrite bind_ret, prefix_nil. reflexivity.
    - rewrite bind_ret, prefix_nil. reflexivity. }
  rewrite Hv, !bind_call. unfold await, await_settled.
  destruct (onValidate (paypalOptionsAt (heap s) p));
    (destruct (createOrder env "paypalcommercealternativemethodscheckout") as [e|created];
     [reflexivity |]);
    (destruct (isNonInstantPaymentMethod env m); [| reflexivity]);
    unfold bind, call, answer, settled, ret, throw; cbn;
    (destruct (submitOrder env _ _); [reflexivity |]); cbn;
    (destruct (submitPayment env _ _ _); reflexivity).
Qed.

Lemma handleFailure_outcome (error : Error) (onError : option CallbackRef) (s : Store) :
  handleFailure error onError s =
  {| result := Ok tt; final := s;
     trace := LoadingIndicatorHide
              :: match onError with
                 | Some cb => [CallOnError cb error]
                 | None => []
                 end |}.
Proof.
  unfold handleFailure.
  rewrite (bind_ok _ _ _ _ _ _ (toggleLoadingIndicator_outcome false s)).
  destruct onError; reflexivity.
Qed.

(** [initialize] up to the rendering, when no order id comes with the
    payment method and the SDK loads. *)
Lemma initialize_loads_sdk (env : Collaborators) (s : Store) (r : Ref) (m g : string)
  (p : Ref) (pm : PaymentMethod) (cart : Cart) (sdk : PayPalApmSdk) :
  let o := initializeOptions (heap s) r in
  truthy (methodId o) = Some m ->
  truthy (gatewayId o) = Some g ->
  match paypalcommercealternativemethods o with
  | Some x => Some x
  | None => paypalcommerce o
  end = Some p ->
  getPaymentMethodOrThrow (getState env) m g = inr pm ->
  truthy match initializationData pm with
         | Some d => init_orderId d
         | None => None
         end = None ->
  getCartOrThrow (getState env) = inr cart ->
  getPayPalApmsSdk env pm (currency_code cart) = inr sdk ->
  let loaded :=
    {| this := set_loadingIndicatorContainer
                 (nth_error (split "#" (container (paypalOptionsAt (heap s) p))) 1)
                 (set_paypalApms (Some sdk) (this s));
       heap := heap s |} in
  initialize env r s =
  prefix [GetState; GetPayPalApmsSdk pm (currency_code cart); Suspend]
    (bind (renderButton env m g p)
       (fun _ => match match initializationData pm with
                       | Some d => shouldRenderFields d
                       | None => None
                       end with
                 | Some true => renderFields env m p
                 | _ => ret tt
                 end) loaded).
Proof.
  intros o Hm Hg Hp Hpm Hoid Hcart Hsdk loaded. subst o loaded. unfold initialize.
  rewrite bind_readInitializeOptions, Hm, Hg, Hp, bind_call, Hpm, bind_answer_inr.
  rewrite Hoid, Hcart, bind_answer_inr, bind_call.
  rewrite Hsdk.
  rewrite (bind_ok _ _ s s sdk [Suspend] eq_refl).
  rewrite bind_setThis, bind_readPaypalOptions, bind_setThis.
  cbn [this heap]. rewrite !prefix_prefix. reflexivity.
Qed.

(** ** Rules for [emits] *)

Section Emits.

Variable allowed : Event -> bool.

Lemma emits_ret {A} (a : A) : emits allowed (ret a).
Proof. intros s. reflexivity. Qed.

Lemma emits_throw {A} (e : Error) : emits allowed (@throw A e).
Proof. intros s. reflexivity. Qed.

Lemma emits_call (e : Event) : allowed e = true -> emits allowed (call e).
Proof. intros H s. cbn. rewrite H. reflexivity. Qed.

Lemma emits_getThis : emits allowed getThis.
Proof. intros s. reflexivity. Qed.

Lemma emits_setThis (f : Strategy -> Strategy) : emits allowed (setThis f).
Proof. intros s. reflexivity. Qed.

Lemma emits_readInitializeOptions (r : Ref) : emits allowed (readInitializeOptions r).
Proof. intros s. reflexivity. Qed.

Lemma emits_readPaypalOptions (r : Ref) : emits allowed (readPaypalOptions r).
Proof. intros s. reflexivity. Qed.

Lemma emits_answer {A} (r : Error + A) : emits allowed (answer r).
Proof. intros s. destruct r; reflexivity. Qed.

Lemma emits_settled (r : option Error) : emits allowed (settled r).
Proof. intros s. destruct r; reflexivity. Qed.

Lemma emits_bind {A B} (c : M A) (k : A -> M B) :
  emits allowed c -> (forall a, emits allowed (k a)) -> emits allowed (bind c k).
Proof.
  intros Hc Hk s. unfold bind. specialize (Hc s).
  destruct (result (c s)) as [a|e]; cbn.
  - rewrite forallb_app, Hc. apply Hk.
  - exact Hc.
Qed.

Lemma emits_await {A} (r : Error + A) :
  allowed Suspend = true -> emits allowed (await r).
Proof.
  intros H. unfold await. apply emits_bind.
  - apply emits_call. exact H.
  - intros _. apply emits_answer.
Qed.

Lemma emits_await_settled (r : option Error) :
  allowed Suspend = true -> emits allowed (await_settled r).
Proof.
  intros H. unfold await_settled. apply emits_bind.
  - apply emits_call. exact H.
  - intros _. apply emits_settled.
Qed.

End Emits.

Ltac emits_step :=
  lazymatch goal with
  | |- emits _ (bind _ _) => apply emits_bind; [| intros ?]
  | |- emits _ (ret _) => apply emits_ret
  | |- emits _ (throw _) => apply emits_throw
  | |- emits _ (call _) => apply emits_call; reflexivity
  | |- emits _ getThis => apply emits_getThis
  | |- emits _ (setThis _) => apply emits_setThis
  | |- emits _ (readInitializeOptions _) => apply emits_readInitializeOptions
  | |- emits _ (readPaypalOptions _) => apply emits_readPaypalOptions
  | |- emits _ (answer _) => apply emits_answer
  | |- emits _ (settled _) => apply emits_settled
  | |- emits _ (await _) => apply emits_await; reflexivity
  | |- emits _ (await_settled _) => apply emits_await_settled; reflexivity
  | |- emits _ (match ?x with _ => _ end) => destruct x
  | |- emits _ (if ?x then _ else _) => destruct x
  end.

Lemma emits_initialize (env : Collaborators) (r : Ref) :
  emits is_initialize_call (initialize env r).
Proof.
  unfold initialize, renderButton, renderFields, getPaypalAmpsSdkOrThrow.
  repeat emits_step.
Qed.

Lemma emits_execute (env : Collaborators) (payload : OrderRequestBody)
  (options : option PaymentRequestOptions) :
  emits (fun e => is_submission e || is_suspend e) (execute env payload options).
Proof. unfold execute. repeat emits_step. Qed.

Lemma emits_invoke (env : Collaborators) (o : PayPalCommerceButtonsOptions)
  (cb : ButtonCallback) :
  emits is_callback_call (invoke env o cb).
Proof.
  unfold invoke, onCreateOrder, handleApprove, handleFailure, toggleLoadingIndicator.
  destruct cb; repeat emits_step.
Qed.


(** * Properties beyond the specification *)

(** ** Execute *)

Lemma execute_no_payment (env : Collaborators) (payload : OrderRequestBody)
  (options : option PaymentRequestOptions) (s : Store) :
  payment payload = None ->
  execute env payload options s =
  {| result := Err (PaymentArgumentInvalidError ["payment"]); final := s; trace := [] |}.
Proof. intros H. unfold execute. rewrite H. reflexivity. Qed.

Lemma execute_no_order_id (env : Collaborators) (payload : OrderRequestBody)
  (options : option PaymentRequestOptions) (s : Store) (p : OrderPaymentRequestBody) :
  payment payload = Some p ->
  truthy (orderId (this s)) = None ->
  execute env payload options s =
  {| result := Err PaymentMethodInvalidError; final := s; trace := [] |}.
Proof.
  intros H Hoid. unfold execute. rewrite H, bind_getThis, Hoid. reflexivity.
Qed.

(** X1: [execute] checks the payment before the order id: without a payment
    it fails with [PaymentArgumentInvalidError(['payment'])] whatever the
    instance holds; with a payment but no order id, or an empty one, it fails
    with [PaymentMethodInvalidError].  In both cases nothing is called and
    nothing is changed. *)
Theorem execute_guards :
  forall (env : Collaborators) (payload : OrderRequestBody)
         (options : option PaymentRequestOptions) (s : Store),
    (payment payload = None ->
     execute env payload options s =
     {| result := Err (PaymentArgumentInvalidError ["payment"]);
        final := s; trace := [] |}) /\
    (forall p, payment payload = Some p ->
               orderId (this s) = None \/ orderId (this s) = Some EmptyString ->
     execute env payload options s =
     {| result := Err PaymentMethodInvalidError; final := s; trace := [] |}).
Proof.
  intros env payload options s. split.
  - apply execute_no_payment.
  - intros p H Hoid. apply (execute_no_order_id env payload options s p H).
    destruct Hoid as [Hoid|Hoid]; rewrite Hoid; reflexivity.
Qed.

Lemma execute_guards_witness :
  execute (Fixtures.sampleEnv None) (Fixtures.payload "sepa") None Fixtures.freshStore =
  {| result := Err PaymentMethodInvalidError; final := Fixtures.freshStore; trace := [] |}.
Proof.
  exact (proj2 (execute_guards (Fixtures.sampleEnv None) (Fixtures.payload "sepa") None
                  Fixtures.freshStore) _ eq_refl (or_introl eq_refl)).
Defined.

(** ** Execute among other turns *)

Lemma executeAmid_alone (env : Collaborators) (payload : OrderRequestBody)
  (options : option PaymentRequestOptions) (s : Store) :
  executeAmid env [] payload options s = execute env payload options s.
Proof.
  unfold executeAmid, execute. destruct (payment payload) as [p|]; [| reflexivity].
  rewrite !bind_getThis.
  destruct (truthy (orderId (this s))); [| reflexivity].
  destruct (isNonInstantPaymentMethod env (payment_methodId p)); cbn [negb];
    [reflexivity |].
  unfold await_settled, elsewhere, bind, call, settled, getThis, ret, throw; cbn.
  destruct (submitOrder env _ options); cbn; [reflexivity |].
  destruct (submitPayment env _ _ _); reflexivity.
Qed.

(** What [executeAmid] does once a payment and an order id are there. *)
Lemma executeAmid_outcome (env : Collaborators) (turns : list Action) (s : Store)
  (payload : OrderRequestBody) (options : option PaymentRequestOptions)
  (p : OrderPaymentRequestBody) (oid : string) :
  payment payload = Some p ->
  truthy (orderId (this s)) = Some oid ->
  let order := {| payment := None; useStoreCredit := useStoreCredit payload |} in
  let mid := payment_methodId p in
  let gid := payment_gatewayId p in
  let resumed := fst (history env turns s) in
  executeAmid env turns payload options s =
  if isNonInstantPaymentMethod env mid then
    {| result := match submitPayment env mid (Some oid) gid with
                 | Some e => Err e
                 | None => Ok tt
                 end;
       final := s;
       trace := [SubmitPayment mid (Some oid) gid; Suspend] |}
  else
    match submitOrder env order options with
    | Some e =>
        {| result := Err e;
           final := resumed;
           trace := [SubmitOrder order options; Suspend] ++ snd (history env turns s) |}
    | None =>
        {| result := match submitPayment env mid (orderId (this resumed)) gid with
                     | Some e => Err e
                     | None => Ok tt
                     end;
           final := resumed;
           trace := [SubmitOrder order options; Suspend]
                    ++ snd (history env turns s)
                    ++ [SubmitPayment mid (orderId (this resumed)) gid; Suspend] |}
    end.
Proof.
  intros Hp Hoid order mid gid resumed.
  destruct (truthy_Some _ _ Hoid) as [Hstored _].
  subst resumed order mid gid. unfold executeAmid. rewrite Hp, bind_getThis, Hoid.
  destruct (isNonInstantPaymentMethod env (payment_methodId p)); cbn [negb].
  - rewrite bind_ret, bind_getThis, Hstored, bind_call.
    unfold await_settled. rewrite bind_call.
    destruct (submitPayment env _ _ _); reflexivity.
  - unfold await_settled, elsewhere, bind, call, settled, getThis, ret, throw; cbn.
    destruct (submitOrder env _ options); cbn; [rewrite app_nil_r; reflexivity |].
    rewrite app_nil_r.
    destruct (submitPayment env _ _ _); cbn; rewrite <- ?app_assoc; reflexivity.
Qed.

(** X2: the order id of an approval is the one [execute] submits afterwards,
    whatever order id the instance held before, provided it is still on the
    instance when [submitOrder] has resolved: what [execute] submits is the
    order id the instance holds at that moment.  An approval that carries an
    empty order id leaves [execute] failing with [PaymentMethodInvalidError]. *)
Theorem approve_then_execute :
  forall (env : Collaborators) (o : PayPalCommerceButtonsOptions)
         (data : ApproveCallbackPayload) (s : Store) (turns : list Action)
         (payload : OrderRequestBody) (options : option PaymentRequestOptions)
         (p : OrderPaymentRequestBody),
    payment payload = Some p ->
    let approved := final (invoke env o (CbOnApprove data) s) in
    let resumed := fst (history env turns approved) in
    let out := executeAmid env turns payload options approved in
    let order := {| payment := None; useStoreCredit := useStoreCredit payload |} in
    (orderID data = EmptyString ->
     result out = Err PaymentMethodInvalidError /\ trace out = []) /\
    (orderID data <> EmptyString ->
     (isNonInstantPaymentMethod env (payment_methodId p) = true ->
      filter is_submission (trace out)
      = [SubmitPayment (payment_methodId p) (Some (orderID data))
           (payment_gatewayId p)]) /\
     (isNonInstantPaymentMethod env (payment_methodId p) = false ->
      submitOrder env order options = None ->
      trace out = [SubmitOrder order options; Suspend]
                  ++ snd (history env turns approved)
                  ++ [SubmitPayment (payment_methodId p) (orderId (this resumed))
                        (payment_gatewayId p); Suspend] /\
      (orderId (this resumed) = orderId (this approved) ->
       trace out = [SubmitOrder order options; Suspend]
                   ++ snd (history env turns approved)
                   ++ [SubmitPayment (payment_methodId p) (Some (orderID data))
                         (payment_gatewayId p); Suspend]))).
Proof.
  intros env o data s turns payload options p Hp approved resumed out order.
  assert (Happroved : approved = {| this := set_orderId (Some (orderID data)) (this s);
                                    heap := heap s |}) by reflexivity.
  split.
  - intros Hempty. subst out.
    assert (Hnone : truthy (orderId (this approved)) = None).
    { rewrite Happroved. cbn. rewrite Hempty. reflexivity. }
    unfold executeAmid. rewrite Hp, bind_getThis, Hnone. split; reflexivity.
  - intros Hne. subst out.
    assert (Hstored : truthy (orderId (this approved)) = Some (orderID data)).
    { rewrite Happroved. cbn. destruct (orderID data); [contradiction | reflexivity]. }
    rewrite (executeAmid_outcome env turns approved payload options p _ Hp Hstored).
    fold resumed. fold order. split.
    + intros Hni. rewrite Hni. reflexivity.
    + intros Hni Hso. rewrite Hni, Hso. cbn [trace]. split; [reflexivity |].
      intros Hkept. rewrite Hkept. reflexivity.
Qed.

Lemma approve_then_execute_witness :
  filter is_submission
    (trace (executeAmid (Fixtures.sampleEnv None) [] (Fixtures.payload "oxxo") None
              (final (invoke (Fixtures.sampleEnv None) Fixtures.sampleClosure
                        (CbOnApprove Scenarios.approval) Fixtures.approvedStore))))
  = [SubmitPayment "oxxo" (Some "ORDER-3") (Some "paypalcommercealternativemethods")].
Proof.
  refine (proj1 (proj2 (approve_then_execute (Fixtures.sampleEnv None)
                          Fixtures.sampleClosure Scenarios.approval
                          Fixtures.approvedStore [] (Fixtures.payload "oxxo") None _
                          eq_refl) _) eq_refl).
  discriminate.
Defined.

(** X3: after [deinitialize], [execute] submits nothing: it fails with
    [PaymentMethodInvalidError] (or with the missing-payment error), in every
    state the instance was in. *)
Theorem deinitialize_then_execute :
  forall (env : Collaborators) (s : Store) (payload : OrderRequestBody)
         (options : option PaymentRequestOptions),
    let out := execute env payload options (final (deinitialize s)) in
    result out = match payment payload with
                 | None => Err (PaymentArgumentInvalidError ["payment"])
                 | Some _ => Err PaymentMethodInvalidError
                 end /\
    trace out = [].
Proof.
  intros env s payload options out. subst out.
  assert (Hfinal : final (deinitialize s) =
                   {| this := set_orderId None (this s); heap := heap s |}).
  { unfold deinitialize. rewrite bind_setThis, bind_getThis.
    cbn [this set_orderId paypalButton]. destruct (paypalButton (this s)); reflexivity. }
  rewrite Hfinal. destruct (payment payload) as [p|] eqn:Hp.
  - rewrite (execute_no_order_id env payload options
               {| this := set_orderId None (this s); heap := heap s |} p Hp eq_refl).
    split; reflexivity.
  - rewrite (execute_no_payment env payload options _ Hp). split; reflexivity.
Qed.

(** X4: [execute] never changes the instance or the option objects, and the
    only calls it makes are [submitOrder] and [submitPayment]: it loads no
    SDK, renders nothing and does not touch the loading indicator, also when
    it fails. *)
Theorem execute_only_submits :
  forall (env : Collaborators) (payload : OrderRequestBody)
         (options : option PaymentRequestOptions) (s : Store),
    let out := execute env payload options s in
    final out = s /\
    forallb (fun e => is_submission e || is_suspend e) (trace out) = true /\
    existsb is_sdk_or_render (trace out) = false /\
    existsb is_loading_indicator (trace out) = false.
Proof.
  intros env payload options s out. subst out.
  assert (Hframe : respects (fun a b : Store => b = a) any_error
                     (execute env payload options)).
  { apply respects_execute; frame_auto; try (intros; congruence). }
  pose proof (emits_execute env payload options s) as Hcalls.
  split; [exact (proj1 (Hframe s)) |]. split; [exact Hcalls |].
  induction (trace (execute env payload options s)) as [|e t IH]; [split; reflexivity |].
  cbn [forallb] in Hcalls. apply andb_true_iff in Hcalls. destruct Hcalls as [He Ht].
  destruct (IH Ht) as [IH1 IH2]. cbn [existsb]. rewrite IH1, IH2.
  destruct e; cbn in He; try discriminate; split; reflexivity.
Qed.

(** ** The vendor callbacks *)

(** X5: a vendor callback other than the approval leaves the whole instance
    as it was; the approval changes the order id and nothing else.  None of
    them reads the checkout state, loads the SDK, renders or closes a
    widget. *)
Theorem callbacks_leave_the_instance :
  forall (env : Collaborators) (o : PayPalCommerceButtonsOptions)
         (cb : ButtonCallback) (s : Store),
    let out := invoke env o cb s in
    final out = match cb with
                | CbOnApprove data =>
                    {| this := set_orderId (Some (orderID data)) (this s);
                       heap := heap s |}
                | _ => s
                end /\
    forallb is_callback_call (trace out) = true.
Proof.
  intros env o cb s out. subst out.
  split; [| apply emits_invoke].
  assert (Hothers : (forall data, cb <> CbOnApprove data) ->
                    respects (fun a b : Store => b = a) any_error (invoke env o cb)).
  { intros Hcb. apply respects_invoke; frame_auto; try (intros; congruence). }
  destruct cb; try (refine (proj1 (Hothers _ s)); intros data; discriminate).
  reflexivity.
Qed.

(** X6: for a non-instant method the [createOrder] handler, once the order
    is created, submits the order with [useStoreCredit: false] and the method
    and gateway as parameters, and then the payment with the created order
    id; when [submitOrder] rejects, the payment is not submitted.  The created
    id is returned to the widget and not stored on the instance. *)
Theorem createOrder_of_non_instant_method :
  forall (env : Collaborators) (m g : string) (p : Ref) (s : Store) (created : string),
    createOrder env "paypalcommercealternativemethodscheckout" = inr created ->
    isNonInstantPaymentMethod env m = true ->
    let order := {| payment := None; useStoreCredit := Some false |} in
    let options :=
      Some {| params := Some {| params_methodId := m; params_gatewayId := g |} |} in
    let out := onCreateOrder env m g p s in
    final out = s /\
    (submitOrder env order options = None ->
     filter is_submission (trace out)
     = [SubmitOrder order options; SubmitPayment m (Some created) (Some g)] /\
     result out = match submitPayment env m (Some created) (Some g) with
                  | Some e => Err e
                  | None => Ok created
                  end) /\
    (forall e, submitOrder env order options = Some e ->
     filter is_submission (trace out) = [SubmitOrder order options] /\
     result out = Err e).
Proof.
  intros env m g p s created Hcreated Hni order options out. subst out.
  rewrite onCreateOrder_outcome, Hcreated, Hni. fold order options.
  split; [destruct (submitOrder env order options); reflexivity |].
  split.
  - intros Hso. rewrite Hso. cbn [trace result]. split; [| reflexivity].
    destruct (onValidate (paypalOptionsAt (heap s) p));
      try destruct (truthy (loadingIndicatorContainer (this s))); reflexivity.
  - intros e Hso. rewrite Hso. cbn [trace result]. split; [| reflexivity].
    destruct (onValidate (paypalOptionsAt (heap s) p));
      try destruct (truthy (loadingIndicatorContainer (this s))); reflexivity.
Qed.

Lemma createOrder_of_non_instant_method_witness :
  final (onCreateOrder (Fixtures.sampleEnv None) "oxxo" "paypalcommercealternativemethods"
           0 Fixtures.freshStore) = Fixtures.freshStore.
Proof.
  exact (proj1 (createOrder_of_non_instant_method (Fixtures.sampleEnv None) "oxxo"
                  "paypalcommercealternativemethods" 0 Fixtures.freshStore "ORDER-2"
                  eq_refl eq_refl)).
Defined.

(** X7: for an instant method the [createOrder] handler only creates the
    order and returns its id: nothing is submitted and the instance is
    unchanged; when [createOrder] rejects, whatever the method, its error is
    the error of the handler and nothing is submitted. *)
Theorem createOrder_of_instant_method :
  forall (env : Collaborators) (m g : string) (p : Ref) (s : Store),
    let out := onCreateOrder env m g p s in
    (forall created,
        createOrder env "paypalcommercealternativemethodscheckout" = inr created ->
        isNonInstantPaymentMethod env m = false ->
        result out = Ok created /\ final out = s /\
        filter is_submission (trace out) = []) /\
    (forall e,
        createOrder env "paypalcommercealternativemethodscheckout" = inl e ->
        result out = Err e /\ final out = s /\
        filter is_submission (trace out) = []).
Proof.
  intros env m g p s out. subst out. rewrite onCreateOrder_outcome.
  split.
  - intros created Hcreated Hni. rewrite Hcreated, Hni. cbn [trace result final].
    repeat split.
    destruct (onValidate (paypalOptionsAt (heap s) p));
      try destruct (truthy (loadingIndicatorContainer (this s))); reflexivity.
  - intros e Hcreated. rewrite Hcreated. cbn [trace result final].
    repeat split.
    destruct (onValidate (paypalOptionsAt (heap s) p));
      try destruct (truthy (loadingIndicatorContainer (this s))); reflexivity.
Qed.

Lemma createOrder_of_instant_method_witness :
  result (onCreateOrder (Fixtures.sampleEnv None) "sepa" "paypalcommercealternativemethods"
            0 Fixtures.freshStore) = Ok "ORDER-2".
Proof.
  exact (proj1 (proj1 (createOrder_of_instant_method (Fixtures.sampleEnv None) "sepa"
                         "paypalcommercealternativemethods" 0 Fixtures.freshStore)
                  "ORDER-2" eq_refl eq_refl)).
Defined.

(** X8: the [createOrder] handler asks the caller to validate first, and then
    requests the order whichever of [resolve] and [reject] the caller invoked:
    a rejected validation is answered with [noop].  The loading indicator is
    touched only when the validation passed: shown in the stored container
    if there is one, hidden otherwise. *)
Theorem createOrder_after_validation :
  forall (env : Collaborators) (m g : string) (p : Ref) (s : Store),
    let po := paypalOptionsAt (heap s) p in
    let out := onCreateOrder env m g p s in
    (exists rest,
        trace out = CallOnValidate (onValidate po) :: rest /\
        In (CreateOrder "paypalcommercealternativemethodscheckout") rest) /\
    filter is_loading_indicator (trace out)
    = match onValidate po with
      | CallsResolve =>
          [match truthy (loadingIndicatorContainer (this s)) with
           | Some c => LoadingIndicatorShow c
           | None => LoadingIndicatorHide
           end]
      | _ => []
      end.
Proof.
  intros env m g p s po out. subst out po. rewrite onCreateOrder_outcome.
  destruct (createOrder env "paypalcommercealternativemethodscheckout") as [e|created];
    [| destruct (isNonInstantPaymentMethod env m);
       [destruct (submitOrder env _ _) |]];
    cbn [trace];
    (split; [eexists; split; [reflexivity |] |]);
    destruct (onValidate (paypalOptionsAt (heap s) p));
    try destruct (truthy (loadingIndicatorContainer (this s)));
    cbn; auto 10.
Qed.

(** X9: the cancel and error handlers always hide the loading indicator and
    never show it; the error handler then passes the vendor's error, as it
    is, to the [onError] callback captured when the button was rendered, if
    there was one.  Neither changes the instance. *)
Theorem cancel_and_error_hide_the_indicator :
  forall (env : Collaborators) (o : PayPalCommerceButtonsOptions) (error : Error)
         (s : Store),
    invoke env o CbOnCancel s =
    {| result := Ok tt; final := s; trace := [LoadingIndicatorHide] |} /\
    invoke env o (CbOnError error) s =
    {| result := Ok tt; final := s;
       trace := LoadingIndicatorHide
                :: match captured_onError (handlers o) with
                   | Some cb => [CallOnError cb error]
                   | None => []
                   end |}.
Proof.
  intros env o error s. split.
  - cbn [invoke]. rewrite toggleLoadingIndicator_outcome. reflexivity.
  - cbn [invoke]. apply handleFailure_outcome.
Qed.

(** ** Rendering *)

(** X10: with the SDK loaded and the payment method known, [renderButton]
    always creates the button and keeps its handle; it renders the button,
    after calling [onRenderButton] if the caller gave one, only when the
    button is eligible.  An ineligible button is kept but neither announced
    nor rendered. *)
Theorem renderButton_renders_only_eligible_buttons :
  forall (env : Collaborators) (m g : string) (p : Ref) (s : Store)
         (sdk : PayPalApmSdk) (pm : PaymentMethod),
    paypalApms (this s) = Some sdk ->
    getPaymentMethodOrThrow (getState env) m g = inr pm ->
    let po := paypalOptionsAt (heap s) p in
    let options := buttonOptionsOf env m g p po pm in
    let button := Buttons sdk options in
    let out := renderButton env m g p s in
    result out = Ok tt /\
    final out = {| this := set_paypalButton (Some button) (this s); heap := heap s |} /\
    filter (fun e => is_sdk_or_render e || is_caller_callback e) (trace out)
    = SdkButtons options
      :: (if isEligible button
          then match onRenderButton po with
               | Some cb => [CallOnRenderButton cb]
               | None => []
               end ++ [ButtonRender button (container po)]
          else []).
Proof.
  intros env m g p s sdk pm Hsdk Hpm po options button out. subst out.
  rewrite (renderButton_outcome env m g p s sdk pm Hsdk Hpm).
  fold po. fold options. fold button. cbn [result final trace].
  repeat split.
  destruct (isEligible button); [| reflexivity].
  destruct (onRenderButton po); reflexivity.
Qed.

Lemma renderButton_renders_only_eligible_buttons_witness :
  result (renderButton (Fixtures.sampleEnv None) "sepa" "paypalcommercealternativemethods"
            0 Scenarios.loadedStore) = Ok tt.
Proof.
  exact (proj1 (renderButton_renders_only_eligible_buttons (Fixtures.sampleEnv None)
                  "sepa" "paypalcommercealternativemethods" 0 Scenarios.loadedStore
                  Fixtures.sdk (Fixtures.samplePaymentMethod None) eq_refl eq_refl)).
Defined.

Lemma renderFields_final (env : Collaborators) (m : string) (p : Ref) (s : Store) :
  final (renderFields env m p s) = s.
Proof.
  assert (H : respects (fun a b : Store => b = a) any_error (renderFields env m p)).
  { apply respects_renderFields; frame_auto; try (intros; congruence). }
  exact (proj1 (H s)).
Qed.

(** X11: with the SDK loaded, the billing address known and a container
    named, [renderFields] looks the container up and, when the document has
    it, empties it before the fields are created and rendered into it, with
    the billing name (first and last name joined by a space) and the billing
    email as values.  When the selector is not valid, the error of
    [document.querySelector] is the error of [renderFields] and no fields are
    created.  The instance is unchanged either way. *)
Theorem renderFields_replaces_the_fields :
  forall (env : Collaborators) (m : string) (p : Ref) (s : Store) (sdk : PayPalApmSdk)
         (billing : BillingAddress) (c : string),
    paypalApms (this s) = Some sdk ->
    getBillingAddressOrThrow (getState env) = inr billing ->
    truthy (apmFieldsContainer (paypalOptionsAt (heap s) p)) = Some c ->
    let options := fieldsOptionsOf m (paypalOptionsAt (heap s) p) billing in
    let out := renderFields env m p s in
    final out = s /\
    fields_name options = (firstName billing ++ " " ++ lastName billing)%string /\
    fields_email options = email billing /\
    (forall found, querySelector env c = inr found ->
       result out = Ok tt /\
       trace out = [GetState; QuerySelector c]
                   ++ (if found then [ClearInnerHTML c] else [])
                   ++ [SdkPaymentFields options;
                       FieldsRender (PaymentFields sdk options) c]) /\
    (forall e, querySelector env c = inl e ->
       result out = Err e /\
       trace out = [GetState; QuerySelector c]).
Proof.
  intros env m p s sdk billing c Hsdk Hbilling Hc options out. subst out.
  split; [apply renderFields_final |].
  split; [reflexivity |]. split; [reflexivity |].
  split.
  - intros found Hfound.
    rewrite (renderFields_outcome env m p s sdk billing c found Hsdk Hbilling Hc Hfound).
    split; reflexivity.
  - intros e Hsel.
    rewrite (renderFields_selector_invalid env m p s sdk billing c e Hsdk Hbilling Hc
               Hsel).
    split; reflexivity.
Qed.

Lemma renderFields_replaces_the_fields_witness :
  final (renderFields (Fixtures.sampleEnv None) "sepa" 0 Scenarios.loadedStore)
  = Scenarios.loadedStore.
Proof.
  exact (proj1 (renderFields_replaces_the_fields (Fixtures.sampleEnv None) "sepa" 0
                  Scenarios.loadedStore Fixtures.sdk
                  {| firstName := "Ada"; lastName := "Lovelace";
                     email := Some "ada@example.com" |}
                  "#apm-fields" eq_refl eq_refl eq_refl)).
Defined.

(** ** Initialize, when the payment method comes without an order id *)

Section InitializeRendering.

Variable env : Collaborators.
Variable s : Store.
Variable r : Ref.
Variables m g : string.
Variable p : Ref.
Variable pm : PaymentMethod.

Hypothesis methodId_given : truthy (methodId (initializeOptions (heap s) r)) = Some m.
Hypothesis gatewayId_given : truthy (gatewayId (initializeOptions (heap s) r)) = Some g.
Hypothesis paypalOptions_given :
  match paypalcommercealternativemethods (initializeOptions (heap s) r) with
  | Some x => Some x
  | None => paypalcommerce (initializeOptions (heap s) r)
  end = Some p.

Lemma initialize_payment_method_unknown (e : Error) :
  getPaymentMethodOrThrow (getState env) m g = inl e ->
  initialize env r s = {| result := Err e; final := s; trace := [GetState] |}.
Proof.
  intros He. unfold initialize.
  rewrite bind_readInitializeOptions, methodId_given, gatewayId_given,
    paypalOptions_given, bind_call, He.
  reflexivity.
Qed.

Hypothesis paymentMethod_known : getPaymentMethodOrThrow (getState env) m g = inr pm.

Lemma initialize_stores_order_id (oid : string) :
  initialOrderId pm = Some oid ->
  initialize env r s =
  {| result := Ok tt;
     final := {| this := set_orderId (Some oid) (this s); heap := heap s |};
     trace := [GetState] |}.
Proof.
  intros Hoid. unfold initialOrderId in Hoid. unfold initialize.
  rewrite bind_readInitializeOptions, methodId_given, gatewayId_given,
    paypalOptions_given, bind_call, paymentMethod_known, bind_answer_inr, Hoid.
  reflexivity.
Qed.

Hypothesis no_order_id : initialOrderId pm = None.

Lemma initialize_cart_unknown (e : Error) :
  getCartOrThrow (getState env) = inl e ->
  initialize env r s = {| result := Err e; final := s; trace := [GetState] |}.
Proof.
  intros He. unfold initialOrderId in no_order_id. unfold initialize.
  rewrite bind_readInitializeOptions, methodId_given, gatewayId_given,
    paypalOptions_given, bind_call, paymentMethod_known, bind_answer_inr,
    no_order_id, He.
  reflexivity.
Qed.

Variable cart : Cart.
Hypothesis cart_known : getCartOrThrow (getState env) = inr cart.

Lemma initialize_sdk_unavailable (e : Error) :
  getPayPalApmsSdk env pm (currency_code cart) = inl e ->
  initialize env r s =
  {| result := Err e; final := s;
     trace := [GetState; GetPayPalApmsSdk pm (currency_code cart); Suspend] |}.
Proof.
  intros He. unfold initialOrderId in no_order_id. unfold initialize.
  rewrite bind_readInitializeOptions, methodId_given, gatewayId_given,
    paypalOptions_given, bind_call, paymentMethod_known, bind_answer_inr,
    no_order_id, cart_known, bind_answer_inr, bind_call, He.
  reflexivity.
Qed.

Variable sdk : PayPalApmSdk.
Hypothesis sdk_loaded : getPayPalApmsSdk env pm (currency_code cart) = inr sdk.

(** [initialize] up to the end of [renderButton]. *)
Lemma initialize_renders_button :
  let po := paypalOptionsAt (heap s) p in
  let options := buttonOptionsOf env m g p po pm in
  let button := Buttons sdk options in
  initialize env r s =
  prefix ([GetState; GetPayPalApmsSdk pm (currency_code cart); Suspend; GetState;
           GetValidButtonStyle match initializationData pm with
                               | Some d => buttonStyle d
                               | None => None
                               end;
           SdkButtons options; ButtonIsEligible button]
          ++ buttonRendering button po)
    ((if wantsFields pm then renderFields env m p else ret tt)
       {| this := set_paypalButton (Some button) (this (afterSdkLoad sdk po s));
          heap := heap s |}).
Proof.
  intros po options button.
  rewrite (initialize_loads_sdk env s r m g p pm cart sdk methodId_given gatewayId_given
             paypalOptions_given paymentMethod_known no_order_id cart_known sdk_loaded).
  fold po. change {| this := set_loadingIndicatorContainer
                               (nth_error (split "#" (container po)) 1)
                               (set_paypalApms (Some sdk) (this s));
                     heap := heap s |} with (afterSdkLoad sdk po s).
  rewrite (bind_ok _ _ _ _ _ _
             (renderButton_outcome env m g p (afterSdkLoad sdk po s) sdk pm
                eq_refl paymentMethod_known)).
  rewrite prefix_prefix. cbn [afterSdkLoad heap]. fold po. fold options. fold button.
  unfold wantsFields, buttonRendering.
  destruct (match initializationData pm with
            | Some d => shouldRenderFields d
            | None => None
            end) as [[|]|]; reflexivity.
Qed.

End InitializeRendering.

Lemma filter_buttonRendering (button : PayPalCommerceButtons)
  (po : PayPalCommerceAlternativeMethodsPaymentOptions) :
  filter is_sdk_or_render (buttonRendering button po)
  = if isEligible button then [ButtonRender button (container po)] else [].
Proof.
  unfold buttonRendering. destruct (isEligible button); [| reflexivity].
  destruct (onRenderButton po); reflexivity.
Qed.

(** X12: when the payment method carries no order id and the SDK loads,
    [initialize] loads the SDK first, then creates the button, and creates
    the payment fields last and only if the payment method asks for them; the
    fields are rendered also when the button is not eligible.  When the fields
    selector is not valid, [initialize] rejects with the error of
    [document.querySelector] after the button and before any fields.  The
    SDK, the container id and the button handle are stored; the order id is
    not touched. *)
Theorem initialize_renders_button_then_fields :
  forall (env : Collaborators) (s : Store) (r : Ref) (m g : string) (p : Ref)
         (pm : PaymentMethod) (cart : Cart) (sdk : PayPalApmSdk),
    truthy (methodId (initializeOptions (heap s) r)) = Some m ->
    truthy (gatewayId (initializeOptions (heap s) r)) = Some g ->
    match paypalcommercealternativemethods (initializeOptions (heap s) r) with
    | Some x => Some x
    | None => paypalcommerce (initializeOptions (heap s) r)
    end = Some p ->
    getPaymentMethodOrThrow (getState env) m g = inr pm ->
    initialOrderId pm = None ->
    getCartOrThrow (getState env) = inr cart ->
    getPayPalApmsSdk env pm (currency_code cart) = inr sdk ->
    let po := paypalOptionsAt (heap s) p in
    let options := buttonOptionsOf env m g p po pm in
    let button := Buttons sdk options in
    let out := initialize env r s in
    let widgets :=
      [GetPayPalApmsSdk pm (currency_code cart); SdkButtons options]
      ++ (if isEligible button then [ButtonRender button (container po)] else []) in
    final out = {| this := set_paypalButton (Some button) (this (afterSdkLoad sdk po s));
                   heap := heap s |} /\
    orderId (this (final out)) = orderId (this s) /\
    (wantsFields pm = false ->
     result out = Ok tt /\ filter is_sdk_or_render (trace out) = widgets) /\
    (wantsFields pm = true ->
     forall billing c,
       getBillingAddressOrThrow (getState env) = inr billing ->
       truthy (apmFieldsContainer po) = Some c ->
       (forall found, querySelector env c = inr found ->
          result out = Ok tt /\
          filter is_sdk_or_render (trace out)
          = widgets ++ [SdkPaymentFields (fieldsOptionsOf m po billing);
                        FieldsRender (PaymentFields sdk (fieldsOptionsOf m po billing)) c]) /\
       (forall e, querySelector env c = inl e ->
          result out = Err e /\
          filter is_sdk_or_render (trace out) = widgets)).
Proof.
  intros env s r m g p pm cart sdk Hm Hg Hp Hpm Hoid Hcart Hsdk po options button out
    widgets.
  subst out widgets.
  rewrite (initialize_renders_button env s r m g p pm Hm Hg Hp Hpm Hoid cart Hcart sdk
             Hsdk).
  fold po. fold options. fold button.
  assert (Hfinal : forall st,
             final ((if wantsFields pm then renderFields env m p else ret tt) st) = st).
  { intros st. destruct (wantsFields pm); [apply renderFields_final | reflexivity]. }
  cbn [prefix final]. rewrite Hfinal.
  split; [reflexivity |]. split; [reflexivity |].
  split.
  - intros Hw. rewrite Hw. unfold prefix, ret. cbn [result trace].
    rewrite app_nil_r, filter_app, filter_buttonRendering. split; reflexivity.
  - intros Hw billing c Hbilling Hc. rewrite Hw. split.
    + intros found Hfound.
      match goal with
      | |- context [renderFields env m p ?st] =>
          rewrite (renderFields_outcome env m p st sdk billing c found eq_refl Hbilling
                     Hc Hfound)
      end.
      unfold prefix. cbn [result trace heap]. fold po. split; [reflexivity |].
      rewrite !filter_app, filter_buttonRendering.
      destruct (isEligible button), found; reflexivity.
    + intros e Hsel.
      match goal with
      | |- context [renderFields env m p ?st] =>
          rewrite (renderFields_selector_invalid env m p st sdk billing c e eq_refl
                     Hbilling Hc Hsel)
      end.
      unfold prefix. cbn [result trace]. split; [reflexivity |].
      rewrite !filter_app, filter_buttonRendering.
      destruct (isEligible button); reflexivity.
Qed.

Lemma initialize_renders_button_then_fields_witness :
  orderId (this (final (initialize (Fixtures.sampleEnv (Some Fixtures.withFields)) 0
                          Fixtures.approvedStore)))
  = Some "ORDER-1".
Proof.
  exact (proj1 (proj2
           (initialize_renders_button_then_fields
              (Fixtures.sampleEnv (Some Fixtures.withFields)) Fixtures.approvedStore 0
              "sepa" "paypalcommercealternativemethods" 0
              (Fixtures.samplePaymentMethod (Some Fixtures.withFields))
              {| currency_code := "EUR" |} Fixtures.sdk
              eq_refl eq_refl eq_refl eq_refl eq_refl eq_refl eq_refl))).
Defined.

(** X13: when the payment method asks for fields and the options name no
    container for them, [initialize] rejects only after the SDK, the
    container id and the button handle are stored and the button, if
    eligible, is rendered: the failed initialization leaves the button on the
    page. *)
Theorem initialize_fails_after_rendering_the_button :
  forall (env : Collaborators) (s : Store) (r : Ref) (m g : string) (p : Ref)
         (pm : PaymentMethod) (cart : Cart) (sdk : PayPalApmSdk)
         (billing : BillingAddress),
    truthy (methodId (initializeOptions (heap s) r)) = Some m ->
    truthy (gatewayId (initializeOptions (heap s) r)) = Some g ->
    match paypalcommercealternativemethods (initializeOptions (heap s) r) with
    | Some x => Some x
    | None => paypalcommerce (initializeOptions (heap s) r)
    end = Some p ->
    getPaymentMethodOrThrow (getState env) m g = inr pm ->
    initialOrderId pm = None ->
    getCartOrThrow (getState env) = inr cart ->
    getPayPalApmsSdk env pm (currency_code cart) = inr sdk ->
    wantsFields pm = true ->
    getBillingAddressOrThrow (getState env) = inr billing ->
    truthy (apmFieldsContainer (paypalOptionsAt (heap s) p)) = None ->
    let po := paypalOptionsAt (heap s) p in
    let options := buttonOptionsOf env m g p po pm in
    let button := Buttons sdk options in
    let out := initialize env r s in
    result out = Err (InvalidArgumentError missing_fields_container_message) /\
    paypalApms (this (final out)) = Some sdk /\
    paypalButton (this (final out)) = Some button /\
    filter is_sdk_or_render (trace out)
    = [GetPayPalApmsSdk pm (currency_code cart); SdkButtons options]
      ++ (if isEligible button then [ButtonRender button (container po)] else []).
Proof.
  intros env s r m g p pm cart sdk billing Hm Hg Hp Hpm Hoid Hcart Hsdk Hw Hbilling Hc
    po options button out.
  subst out.
  rewrite (initialize_renders_button env s r m g p pm Hm Hg Hp Hpm Hoid cart Hcart sdk
             Hsdk).
  fold po. fold options. fold button. rewrite Hw.
  match goal with
  | |- context [renderFields env m p ?st] =>
      rewrite (renderFields_without_container env m p st sdk billing eq_refl Hbilling Hc)
  end.
  unfold prefix.
  cbn [result final trace this set_paypalButton paypalApms paypalButton
         afterSdkLoad set_loadingIndicatorContainer set_paypalApms].
  repeat split.
  rewrite !filter_app, filter_buttonRendering.
  destruct (isEligible button); reflexivity.
Qed.

Lemma initialize_fails_after_rendering_the_button_witness :
  paypalButton (this (final (initialize (Fixtures.sampleEnv (Some Fixtures.withFields)) 1
                               Fixtures.freshStore)))
  = Some {| button_handle := 1; isEligible := true |}.
Proof.
  exact (proj1 (proj2 (proj2
           (initialize_fails_after_rendering_the_button
              (Fixtures.sampleEnv (Some Fixtures.withFields)) Fixtures.freshStore 1
              "sepa" "paypalcommercealternativemethods" 1
              (Fixtures.samplePaymentMethod (Some Fixtures.withFields))
              {| currency_code := "EUR" |} Fixtures.sdk
              {| firstName := "Ada"; lastName := "Lovelace";
                 email := Some "ada@example.com" |}
              eq_refl eq_refl eq_refl eq_refl eq_refl eq_refl eq_refl eq_refl eq_refl
              eq_refl)))).
Defined.

(** X14: a failure of [initialize] before the widgets - the payment method or
    the cart is not in the checkout state, or the SDK does not load - passes
    the collaborator's error on and leaves the instance exactly as it was;
    no widget has been created. *)
Theorem initialize_early_failures_change_nothing :
  forall (env : Collaborators) (s : Store) (r : Ref) (m g : string) (p : Ref),
    truthy (methodId (initializeOptions (heap s) r)) = Some m ->
    truthy (gatewayId (initializeOptions (heap s) r)) = Some g ->
    match paypalcommercealternativemethods (initializeOptions (heap s) r) with
    | Some x => Some x
    | None => paypalcommerce (initializeOptions (heap s) r)
    end = Some p ->
    let out := initialize env r s in
    (forall e, getPaymentMethodOrThrow (getState env) m g = inl e ->
               out = {| result := Err e; final := s; trace := [GetState] |}) /\
    (forall pm, getPaymentMethodOrThrow (getState env) m g = inr pm ->
                initialOrderId pm = None ->
       (forall e, getCartOrThrow (getState env) = inl e ->
                  out = {| result := Err e; final := s; trace := [GetState] |}) /\
       (forall cart e, getCartOrThrow (getState env) = inr cart ->
                       getPayPalApmsSdk env pm (currency_code cart) = inl e ->
                       out = {| result := Err e; final := s;
                                trace := [GetState;
                                          GetPayPalApmsSdk pm (currency_code cart);
                                          Suspend] |})).
Proof.
  intros env s r m g p Hm Hg Hp out. subst out. split.
  - intros e He. apply (initialize_payment_method_unknown env s r m g p Hm Hg Hp e He).
  - intros pm Hpm Hoid. split.
    + intros e He.
      apply (initialize_cart_unknown env s r m g p pm Hm Hg Hp Hpm Hoid e He).
    + intros cart e Hcart He.
      apply (initialize_sdk_unavailable env s r m g p pm Hm Hg Hp Hpm Hoid cart Hcart e He).
Qed.

Lemma initialize_early_failures_change_nothing_witness :
  initialize Scenarios.envWithoutPaymentMethod 0 Fixtures.approvedStore =
  {| result := Err (OtherError "MissingDataError");
     final := Fixtures.approvedStore; trace := [GetState] |}.
Proof.
  exact (proj1 (initialize_early_failures_change_nothing Scenarios.envWithoutPaymentMethod
                  Fixtures.approvedStore 0 "sepa" "paypalcommercealternativemethods" 0
                  eq_refl eq_refl eq_refl)
           (OtherError "MissingDataError") eq_refl).
Defined.

(** ** The loading indicator *)




Lemma forallb_excludes (P Q : Event -> bool) (t : list Event) :
  (forall e, P e = true -> Q e = false) ->
  forallb P t = true -> existsb Q t = false.
Proof.
  intros HPQ. induction t as [|e t IH]; cbn; [reflexivity |].
  intros H. apply andb_true_iff in H. destruct H as [He Ht].
  rewrite (HPQ e He), (IH Ht). reflexivity.
Qed.

Lemma forallb_In_allowed (P : Event -> bool) (t : list Event) (e : Event) :
  forallb P t = true -> In e t -> P e = true.
Proof. intros H Hin. rewrite forallb_forall in H. apply H. exact Hin. Qed.

Lemma trace_then_ret {A} (c : M A) (s : Store) :
  trace (bind c (fun _ => ret tt) s) = trace (c s).
Proof.
  unfold bind. destruct (result (c s)); cbn; [apply app_nil_r | reflexivity].
Qed.

Lemma onCreateOrder_indicator (env : Collaborators) (m g : string) (p : Ref) (s : Store) :
  filter is_loading_indicator (trace (onCreateOrder env m g p s))
  = match onValidate (paypalOptionsAt (heap s) p) with
    | CallsResolve =>
        [match truthy (loadingIndicatorContainer (this s)) with
         | Some c => LoadingIndicatorShow c
         | None => LoadingIndicatorHide
         end]
    | _ => []
    end.
Proof.
  rewrite onCreateOrder_outcome.
  destruct (createOrder env "paypalcommercealternativemethodscheckout") as [e|created];
    [| destruct (isNonInstantPaymentMethod env m);
       [destruct (submitOrder env _ _) |]];
    cbn [trace];
    destruct (onValidate (paypalOptionsAt (heap s) p));
    try destruct (truthy (loadingIndicatorContainer (this s)));
    reflexivity.
Qed.

(** X16: the loading indicator is shown by one path only: the [createOrder]
    handler, after the caller's validation called [resolve], and in the
    container id the instance holds.  No public operation and no other
    handler ever shows it. *)
Theorem loading_indicator_shown_only_by_validated_createOrder :
  forall (env : Collaborators) (a : Action) (s : Store) (c : string),
    In (LoadingIndicatorShow c) (trace (act env a s)) ->
    (exists o, a = Vendor o CbCreateOrder /\
               onValidate (paypalOptionsAt (heap s) (captured_paypalOptions (handlers o)))
               = CallsResolve) /\
    truthy (loadingIndicatorContainer (this s)) = Some c.
Proof.
  intros env a s c Hin.
  destruct a as [[r | payload options | | ] | o cb]; cbn [act perform] in Hin.
  - pose proof (forallb_In_allowed _ _ _ (emits_initialize env r s) Hin) as H.
    discriminate H.
  - pose proof (forallb_In_allowed _ _ _ (emits_execute env payload options s) Hin) as H.
    discriminate H.
  - destruct Hin.
  - unfold deinitialize in Hin. rewrite bind_setThis, bind_getThis in Hin.
    cbn [this set_orderId paypalButton] in Hin.
    destruct (paypalButton (this s)); cbn in Hin; [destruct Hin as [H|[]] | destruct Hin].
    discriminate H.
  - destruct cb; cbn [invoke] in Hin.
    + rewrite bind_readPaypalOptions in Hin. cbn in Hin. destruct Hin as [H|[]].
      discriminate H.
    + rewrite trace_then_ret in Hin.
      assert (Hshow : In (LoadingIndicatorShow c)
                        (filter is_loading_indicator
                           (trace (onCreateOrder env (captured_methodId (handlers o))
                                     (captured_gatewayId (handlers o))
                                     (captured_paypalOptions (handlers o)) s)))).
      { apply filter_In. split; [exact Hin | reflexivity]. }
      rewrite onCreateOrder_indicator in Hshow.
      destruct (onValidate (paypalOptionsAt (heap s) (captured_paypalOptions (handlers o))))
        eqn:Hv; cbn in Hshow; try contradiction.
      destruct Hshow as [H|[]].
      destruct (truthy (loadingIndicatorContainer (this s))) as [c'|]; [| discriminate H].
      inversion H; subst. split; [| reflexivity].
      exists o. split; [reflexivity | exact Hv].
    + cbn in Hin. destruct Hin as [H|[]]. discriminate H.
    + rewrite toggleLoadingIndicator_outcome in Hin. cbn in Hin.
      destruct Hin as [H|[]]. discriminate H.
    + rewrite handleFailure_outcome in Hin. cbn in Hin.
      destruct Hin as [H|Hin]; [discriminate H |].
      destruct (captured_onError (handlers o)); cbn in Hin; [| contradiction].
      destruct Hin as [H|[]]. discriminate H.
    + rewrite bind_readPaypalOptions in Hin. cbn in Hin. destruct Hin as [H|[]].
      discriminate H.
Qed.

Lemma loading_indicator_shown_only_by_validated_createOrder_witness :
  (exists o,
      Vendor Fixtures.sampleClosure CbCreateOrder = Vendor o CbCreateOrder /\
      onValidate (paypalOptionsAt (heap Scenarios.loadedStore)
                    (captured_paypalOptions (handlers o))) = CallsResolve) /\
  truthy (loadingIndicatorContainer (this Scenarios.loadedStore))
  = Some "checkout-payment-continue".
Proof.
  apply (loading_indicator_shown_only_by_validated_createOrder (Fixtures.sampleEnv None)
           (Vendor Fixtures.sampleClosure CbCreateOrder) Scenarios.loadedStore
           "checkout-payment-continue").
  right. left. reflexivity.
Defined.

(** ** Non-instant payment methods *)

Lemma upper_ascii_idempotent (c : ascii) : upper_ascii (upper_ascii c) = upper_ascii c.
Proof.
  destruct c as [[] [] [] [] [] [] [] []]; reflexivity.
Qed.

Lemma toUpperCase_idempotent (s : string) : toUpperCase (toUpperCase s) = toUpperCase s.
Proof.
  induction s as [|c rest IH]; cbn; [reflexivity |].
  rewrite upper_ascii_idempotent, IH. reflexivity.
Qed.

Lemma upper_of_lower_ascii (c : ascii) : upper_ascii (lower_ascii c) = upper_ascii c.
Proof.
  destruct c as [[] [] [] [] [] [] [] []]; reflexivity.
Qed.

Lemma toUpperCase_of_toLowerCase (s : string) :
  toUpperCase (toLowerCase s) = toUpperCase s.
Proof.
  induction s as [|c rest IH]; cbn; [reflexivity |].
  rewrite upper_of_lower_ascii, IH. reflexivity.
Qed.

(** X17: whether a method is a non-instant one does not depend on the case
    of the ASCII letters of its id: the id, its lower-case form and its
    upper-case form are treated alike, and so are two ids that differ in case
    only, so that [execute] skips [submitOrder] for both or for neither. *)
Theorem isNonInstantPaymentMethod_ignores_case :
  forall (env : Collaborators) (m : string),
    isNonInstantPaymentMethod env (toLowerCase m) = isNonInstantPaymentMethod env m /\
    isNonInstantPaymentMethod env (toUpperCase m) = isNonInstantPaymentMethod env m /\
    (forall m', toLowerCase m = toLowerCase m' ->
                isNonInstantPaymentMethod env m = isNonInstantPaymentMethod env m').
Proof.
  intros env m. unfold isNonInstantPaymentMethod.
  split; [rewrite toUpperCase_of_toLowerCase; reflexivity |].
  split; [rewrite toUpperCase_idempotent; reflexivity |].
  intros m' H.
  rewrite <- (toUpperCase_of_toLowerCase m), H, toUpperCase_of_toLowerCase.
  reflexivity.
Qed.

Lemma isNonInstantPaymentMethod_ignores_case_witness :
  isNonInstantPaymentMethod (Fixtures.sampleEnv None) "oxxo"
  = isNonInstantPaymentMethod (Fixtures.sampleEnv None) "OxXo".
Proof.
  exact (proj2 (proj2 (isNonInstantPaymentMethod_ignores_case (Fixtures.sampleEnv None)
                         "oxxo")) "OxXo" eq_refl).
Defined.

Example mixed_case_oxxo_is_non_instant :
  isNonInstantPaymentMethod (Fixtures.sampleEnv None) "oXxO" = true /\
  isNonInstantPaymentMethod (Fixtures.sampleEnv None) "OXXO" = true /\
  isNonInstantPaymentMethod (Fixtures.sampleEnv None) "oxxo!" = false.
Proof. repeat split. Qed.

(** ** What the operations never do *)

(** X18: [initialize] never submits an order or a payment, never creates an
    order, never touches the loading indicator and never closes a button, in
    any state and with any options, also when it fails; of the caller's
    callbacks it calls at most [onRenderButton]. *)
Theorem initialize_only_loads_and_renders :
  forall (env : Collaborators) (r : Ref) (s : Store),
    let t := trace (initialize env r s) in
    forallb is_initialize_call t = true /\
    existsb is_submission t = false /\
    existsb is_loading_indicator t = false /\
    existsb is_button_close t = false /\
    (forall e, In e t -> is_caller_callback e = true ->
               exists cb, e = CallOnRenderButton cb).
Proof.
  intros env r s t. subst t.
  pose proof (emits_initialize env r s) as H.
  split; [exact H |].
  split; [apply (forallb_excludes is_initialize_call); [| exact H];
          intros e He; destruct e; try reflexivity; discriminate He |].
  split; [apply (forallb_excludes is_initialize_call); [| exact H];
          intros e He; destruct e; try reflexivity; discriminate He |].
  split; [apply (forallb_excludes is_initialize_call); [| exact H];
          intros e He; destruct e; try reflexivity; discriminate He |].
  intros e Hin Hcb. pose proof (forallb_In_allowed _ _ _ H Hin) as He.
  destruct e; try discriminate He; try discriminate Hcb. eauto.
Qed.

(** X19: a button is closed by [deinitialize] only, and the button closed is
    the one the instance holds: no other operation and no vendor callback
    closes a button; in particular a second [initialize] replaces the handle
    without closing the button it replaces. *)
Theorem only_deinitialize_closes_the_button :
  forall (env : Collaborators) (a : Action) (s : Store) (button : PayPalCommerceButtons),
    In (ButtonClose button) (trace (act env a s)) ->
    a = Public Deinitialize /\ paypalButton (this s) = Some button.
Proof.
  intros env a s button Hin.
  destruct a as [[r | payload options | | ] | o cb]; cbn [act perform] in Hin.
  - pose proof (forallb_In_allowed _ _ _ (emits_initialize env r s) Hin) as H.
    discriminate H.
  - pose proof (forallb_In_allowed _ _ _ (emits_execute env payload options s) Hin) as H.
    discriminate H.
  - destruct Hin.
  - unfold deinitialize in Hin. rewrite bind_setThis, bind_getThis in Hin.
    cbn [this set_orderId paypalButton] in Hin.
    destruct (paypalButton (this s)) as [b|]; cbn in Hin; [| destruct Hin].
    destruct Hin as [H|[]]. inversion H; subst. split; reflexivity.
  - pose proof (forallb_In_allowed _ _ _ (emits_invoke env o cb s) Hin) as H.
    discriminate H.
Qed.

Lemma only_deinitialize_closes_the_button_witness :
  Public Deinitialize = Public Deinitialize /\
  paypalButton (this Fixtures.renderedStore)
  = Some {| button_handle := 1; isEligible := true |}.
Proof.
  exact (only_deinitialize_closes_the_button (Fixtures.sampleEnv None)
           (Public Deinitialize) Fixtures.renderedStore
           {| button_handle := 1; isEligible := true |} (or_introl eq_refl)).
Defined.

(** X20: [deinitialize] keeps the button handle: calling it again closes the
    same button once more and leaves the instance as the first call left
    it. *)
Theorem deinitialize_twice :
  forall (s : Store),
    let first := deinitialize s in
    let second := deinitialize (final first) in
    result second = Ok tt /\
    final second = final first /\
    trace second = trace first /\
    paypalButton (this (final second)) = paypalButton (this s).
Proof.
  intros s first second. subst first second. unfold deinitialize.
  rewrite !bind_setThis, !bind_getThis. cbn [this set_orderId paypalButton].
  destruct (paypalButton (this s)) as [b|] eqn:Hb; cbn.
  - rewrite Hb. cbn. rewrite Hb. repeat split.
  - rewrite Hb. cbn. rewrite Hb. repeat split.
Qed.

(** ** An invariant of the instance *)

Lemma initialize_button_needs_sdk (env : Collaborators) (r : Ref) (s : Store) :
  button_needs_sdk (this s) ->
  button_needs_sdk (this (final (initialize env r s))).
Proof.
  intros Hinv.
  destruct (truthy (methodId (initializeOptions (heap s) r))) as [m|] eqn:Hm;
    [| rewrite (initialize_missing_methodId env s r Hm); exact Hinv].
  destruct (truthy (gatewayId (initializeOptions (heap s) r))) as [g|] eqn:Hg;
    [| rewrite (initialize_missing_gatewayId env s r m Hm Hg); exact Hinv].
  destruct (match paypalcommercealternativemethods (initializeOptions (heap s) r) with
            | Some x => Some x
            | None => paypalcommerce (initializeOptions (heap s) r)
            end) as [p|] eqn:Hp.
  - destruct (getPaymentMethodOrThrow (getState env) m g) as [e|pm] eqn:Hpm;
      [rewrite (initialize_payment_method_unknown env s r m g p Hm Hg Hp e Hpm);
       exact Hinv |].
    destruct (initialOrderId pm) as [oid|] eqn:Hoid;
      [rewrite (initialize_stores_order_id env s r m g p pm Hm Hg Hp Hpm oid Hoid);
       exact Hinv |].
    destruct (getCartOrThrow (getState env)) as [e|cart] eqn:Hcart;
      [rewrite (initialize_cart_unknown env s r m g p pm Hm Hg Hp Hpm Hoid e Hcart);
       exact Hinv |].
    destruct (getPayPalApmsSdk env pm (currency_code cart)) as [e|sdk] eqn:Hsdk;
      [rewrite (initialize_sdk_unavailable env s r m g p pm Hm Hg Hp Hpm Hoid cart Hcart
                  e Hsdk);
       exact Hinv |].
    rewrite (initialize_renders_button env s r m g p pm Hm Hg Hp Hpm Hoid cart Hcart sdk
               Hsdk).
    unfold prefix. cbn [final].
    destruct (wantsFields pm); [rewrite renderFields_final |];
      intros _; cbn; discriminate.
  - destruct (paypalcommercealternativemethods (initializeOptions (heap s) r))
      as [x|] eqn:Halt; [discriminate Hp |].
    rewrite (initialize_missing_paypalOptions env s r m g Hm Hg Halt Hp).
    exact Hinv.
Qed.

Lemma act_button_needs_sdk (env : Collaborators) (a : Action) (s : Store) :
  button_needs_sdk (this s) ->
  button_needs_sdk (this (final (act env a s))).
Proof.
  intros Hinv.
  destruct a as [[r | payload options | | ] | o cb]; cbn [act perform].
  - apply initialize_button_needs_sdk. exact Hinv.
  - assert (H : respects (fun a b : Store => b = a) any_error
                  (execute env payload options)).
    { apply respects_execute; frame_auto; try (intros; congruence). }
    rewrite (proj1 (H s)). exact Hinv.
  - exact Hinv.
  - unfold deinitialize. rewrite bind_setThis, bind_getThis.
    cbn [this set_orderId paypalButton].
    destruct (paypalButton (this s)); exact Hinv.
  - assert (Hothers : (forall data, cb <> CbOnApprove data) ->
                      respects (fun a b : Store => b = a) any_error (invoke env o cb)).
    { intros Hcb. apply respects_invoke; frame_auto; try (intros; congruence). }
    destruct cb;
      try (rewrite (proj1 (Hothers ltac:(intros data; discriminate) s)); exact Hinv).
    exact Hinv.
Qed.

(** X21: the instance holds a button handle only together with the SDK that
    made it: if this is so at some point (as it is on a new instance), it
    stays so through any sequence of public operations and vendor
    callbacks. *)
Theorem button_handle_needs_the_sdk :
  forall (env : Collaborators) (actions : list Action) (s : Store),
    button_needs_sdk (this s) ->
    button_needs_sdk (this (fst (history env actions s))).
Proof.
  intros env actions. induction actions as [|a rest IH]; intros s Hinv;
    cbn [history fst].
  - exact Hinv.
  - specialize (IH (final (act env a s)) (act_button_needs_sdk env a s Hinv)).
    destruct (history env rest (final (act env a s))) as [s' t'].
    exact IH.
Qed.

Lemma button_handle_needs_the_sdk_witness :
  button_needs_sdk
    (this (fst (history (Fixtures.sampleEnv None)
                  [Public (Initialize 0);
                   Vendor Fixtures.sampleClosure (CbOnApprove Scenarios.approval);
                   Public Deinitialize]
                  Fixtures.freshStore))).
Proof.
  apply (button_handle_needs_the_sdk (Fixtures.sampleEnv None)
           [Public (Initialize 0);
            Vendor Fixtures.sampleClosure (CbOnApprove Scenarios.approval);
            Public Deinitialize]
           Fixtures.freshStore).
  intros H. exfalso. apply H. reflexivity.
Defined.

(** ** The whole flow *)

Lemma invoke_createOrder_outcome (env : Collaborators) (o : PayPalCommerceButtonsOptions)
  (s : Store) :
  trace (invoke env o CbCreateOrder s)
  = trace (onCreateOrder env (captured_methodId (handlers o))
             (captured_gatewayId (handlers o)) (captured_paypalOptions (handlers o)) s) /\
  final (invoke env o CbCreateOrder s) = s.
Proof.
  cbn [invoke]. split; [apply trace_then_ret |].
  assert (H : respects (fun a b : Store => b = a) any_error (invoke env o CbCreateOrder)).
  { apply respects_invoke; frame_auto; try (intros; congruence). }
  exact (proj1 (H s)).
Qed.

(** X22: through the flow of one payment - the widget asks for the order, the
    shopper approves, the form is submitted and [execute] runs - the flow
    submits the order exactly once when every submission resolves: [execute]
    does for an instant method, the [createOrder] handler does for a
    non-instant one, whose payment is then submitted twice, first with the
    created and then with the approved order id.  For an instant method the
    payment carries the order id the instance holds when [submitOrder] has
    resolved: the approved one, unless another turn wrote it meanwhile. *)
Theorem order_is_submitted_once_per_flow :
  forall (env : Collaborators) (o : PayPalCommerceButtonsOptions)
         (data : ApproveCallbackPayload) (turns : list Action)
         (payload : OrderRequestBody)
         (options : option PaymentRequestOptions) (pay : OrderPaymentRequestBody)
         (created : string) (s : Store),
    createOrder env "paypalcommercealternativemethodscheckout" = inr created ->
    (forall order opts, submitOrder env order opts = None) ->
    orderID data <> EmptyString ->
    payment payload = Some pay ->
    payment_methodId pay = captured_methodId (handlers o) ->
    let m := captured_methodId (handlers o) in
    let g := captured_gatewayId (handlers o) in
    let asked := invoke env o CbCreateOrder s in
    let approved := invoke env o (CbOnApprove data) (final asked) in
    let executed := executeAmid env turns payload options (final approved) in
    let resumed := fst (history env turns (final approved)) in
    let meanwhile := snd (history env turns (final approved)) in
    (isNonInstantPaymentMethod env m = true ->
     filter is_submission (trace asked ++ trace approved ++ trace executed)
     = [SubmitOrder {| payment := None; useStoreCredit := Some false |}
          (Some {| params := Some {| params_methodId := m;
                                     params_gatewayId := g |} |});
        SubmitPayment m (Some created) (Some g);
        SubmitPayment m (Some (orderID data)) (payment_gatewayId pay)]) /\
    (isNonInstantPaymentMethod env m = false ->
     filter is_submission (trace asked ++ trace approved ++ trace executed)
     = [SubmitOrder {| payment := None; useStoreCredit := useStoreCredit payload |}
          options]
       ++ filter is_submission meanwhile
       ++ [SubmitPayment m (orderId (this resumed)) (payment_gatewayId pay)]) /\
    (orderId (this resumed) = orderId (this (final approved)) ->
     orderId (this resumed) = Some (orderID data)).
Proof.
  intros env o data turns payload options pay created s Hcreated Hso Hne Hpay Hm m g
    asked approved executed resumed meanwhile.
  subst asked approved executed resumed meanwhile.
  destruct (invoke_createOrder_outcome env o s) as [Htrace Hfinal].
  rewrite Htrace, Hfinal. clear Htrace Hfinal.
  assert (Hstored : truthy (orderId (this (final (invoke env o (CbOnApprove data) s))))
                    = Some (orderID data)).
  { cbn. destruct (orderID data); [contradiction | reflexivity]. }
  rewrite (executeAmid_outcome env turns _ payload options pay _ Hpay Hstored).
  rewrite onCreateOrder_outcome, Hcreated, Hm. fold m g.
  split; [| split].
  - intros Hni. rewrite Hni, Hso. cbn [trace invoke handleApprove].
    rewrite !filter_app.
    destruct (onValidate (paypalOptionsAt (heap s) (captured_paypalOptions (handlers o))));
      try destruct (truthy (loadingIndicatorContainer (this s)));
      reflexivity.
  - intros Hni. rewrite Hni, Hso. cbn [trace invoke handleApprove].
    rewrite !filter_app.
    destruct (onValidate (paypalOptionsAt (heap s) (captured_paypalOptions (handlers o))));
      try destruct (truthy (loadingIndicatorContainer (this s)));
      reflexivity.
  - intros Hkept. rewrite Hkept. reflexivity.
Qed.

Lemma order_is_submitted_once_per_flow_witness :
  orderId (this (fst (history (Fixtures.sampleEnv None) []
                        (final (invoke (Fixtures.sampleEnv None) Scenarios.oxxoClosure
                                  (CbOnApprove Scenarios.approval)
                                  (final (invoke (Fixtures.sampleEnv None)
                                            Scenarios.oxxoClosure CbCreateOrder
                                            Scenarios.loadedStore)))))))
  = Some "ORDER-3".
Proof.
  refine (proj2 (proj2 (order_is_submitted_once_per_flow (Fixtures.sampleEnv None)
            Scenarios.oxxoClosure Scenarios.approval [] (Fixtures.payload "oxxo") None _
            "ORDER-2" Scenarios.loadedStore eq_refl _ _ eq_refl eq_refl)) eq_refl).
  - intros order opts. reflexivity.
  - discriminate.
Defined.

(** X23: the test of the order id at the start of [execute] does not protect
    the payment of an instant method: when [deinitialize] runs while
    [execute] awaits [submitOrder], [execute] goes on once the order is
    submitted and calls [submitPayment] without an order id. *)
Theorem deinitialize_while_execute_awaits :
  forall (env : Collaborators) (s : Store) (payload : OrderRequestBody)
         (options : option PaymentRequestOptions) (p : OrderPaymentRequestBody)
         (oid : string),
    payment payload = Some p ->
    truthy (orderId (this s)) = Some oid ->
    isNonInstantPaymentMethod env (payment_methodId p) = false ->
    let order := {| payment := None; useStoreCredit := useStoreCredit payload |} in
    submitOrder env order options = None ->
    let out := executeAmid env [Public Deinitialize] payload options s in
    trace out
    = [SubmitOrder order options; Suspend]
      ++ match paypalButton (this s) with
         | Some button => [ButtonClose button]
         | None => []
         end
      ++ [SubmitPayment (payment_methodId p) None (payment_gatewayId p); Suspend] /\
    result out = match submitPayment env (payment_methodId p) None (payment_gatewayId p) with
                 | Some e => Err e
                 | None => Ok tt
                 end /\
    orderId (this (final out)) = None.
Proof.
  intros env s payload options p oid Hp Hoid Hni order Hso out. subst out.
  rewrite (executeAmid_outcome env [Public Deinitialize] s payload options p oid Hp Hoid).
  fold order. rewrite Hni, Hso. cbn [history act perform fst snd].
  unfold deinitialize. rewrite bind_setThis, bind_getThis.
  cbn [this set_orderId paypalButton].
  destruct (paypalButton (this s)); cbn; repeat split.
Qed.

Lemma deinitialize_while_execute_awaits_witness :
  trace (executeAmid (Fixtures.sampleEnv None) [Public Deinitialize]
           (Fixtures.payload "sepa") None Fixtures.approvedStore)
  = [SubmitOrder {| payment := None; useStoreCredit := Some false |} None; Suspend;
     SubmitPayment "sepa" None (Some "paypalcommercealternativemethods"); Suspend].
Proof.
  exact (proj1 (deinitialize_while_execute_awaits (Fixtures.sampleEnv None)
                  Fixtures.approvedStore (Fixtures.payload "sepa") None _ "ORDER-1"
                  eq_refl eq_refl eq_refl eq_refl)).
Defined.

(** * The claims on [execute] among other turns, on the guards and on the errors *)

(** C1: with a payment in the payload and an order id on the instance,
    [execute] calls [submitOrder] first and, once that promise has resolved,
    [submitPayment] with the order id that the instance holds then - the one
    it held at the call when no other turn wrote it while [execute] was
    suspended; for a non-instant method [submitPayment], with the order id
    held at the call, is the only call. *)
Theorem execute_submits_order_then_payment :
  forall (env : Collaborators) (turns : list Action) (s : Store)
         (payload : OrderRequestBody) (options : option PaymentRequestOptions)
         (p : OrderPaymentRequestBody) (oid : string),
    payment payload = Some p ->
    truthy (orderId (this s)) = Some oid ->
    let order := {| payment := None; useStoreCredit := useStoreCredit payload |} in
    let mid := payment_methodId p in
    let gid := payment_gatewayId p in
    let resumed := fst (history env turns s) in
    let meanwhile := snd (history env turns s) in
    let o := executeAmid env turns payload options s in
    (isNonInstantPaymentMethod env mid = false ->
     (exists rest, trace o = SubmitOrder order options :: Suspend :: rest) /\
     (submitOrder env order options = None ->
      trace o = [SubmitOrder order options; Suspend]
                ++ meanwhile
                ++ [SubmitPayment mid (orderId (this resumed)) gid; Suspend] /\
      (orderId (this resumed) = orderId (this s) ->
       trace o = [SubmitOrder order options; Suspend]
                 ++ meanwhile
                 ++ [SubmitPayment mid (Some oid) gid; Suspend])) /\
     (forall e, submitOrder env order options = Some e ->
      trace o = [SubmitOrder order options; Suspend] ++ meanwhile /\
      result o = Err e)) /\
    (isNonInstantPaymentMethod env mid = true ->
     trace o = [SubmitPayment mid (Some oid) gid; Suspend]) /\
    executeAmid env [] payload options s = execute env payload options s.
Proof.
  intros env turns s payload options p oid Hp Hoid order mid gid resumed meanwhile o.
  destruct (truthy_Some _ _ Hoid) as [Hstored _].
  subst o. rewrite (executeAmid_outcome env turns s payload options p oid Hp Hoid).
  fold order mid gid resumed meanwhile.
  split; [| split].
  - intros Hni. rewrite Hni. split; [| split].
    + destruct (submitOrder env order options); cbn; eauto.
    + intros H. rewrite H. cbn [trace]. split; [reflexivity |].
      intros Hkept. rewrite Hkept, Hstored. reflexivity.
    + intros e H. rewrite H. split; reflexivity.
  - intros Hni. rewrite Hni. reflexivity.
  - apply executeAmid_alone.
Qed.

Lemma execute_submits_order_then_payment_witness :
  trace (executeAmid (Fixtures.sampleEnv None)
           [Vendor Fixtures.sampleClosure CbOnCancel]
           (Fixtures.payload "sepa") None Fixtures.approvedStore)
  = [SubmitOrder {| payment := None; useStoreCredit := Some false |} None; Suspend;
     LoadingIndicatorHide;
     SubmitPayment "sepa" (Some "ORDER-1") (Some "paypalcommercealternativemethods");
     Suspend].
Proof.
  pose proof (execute_submits_order_then_payment (Fixtures.sampleEnv None)
                [Vendor Fixtures.sampleClosure CbOnCancel]
                Fixtures.approvedStore (Fixtures.payload "sepa") None _ "ORDER-1"
                eq_refl eq_refl) as H.
  cbv zeta in H. destruct H as [H _].
  destruct (H eq_refl) as [_ [H2 _]].
  exact (proj2 (H2 eq_refl) eq_refl).
Defined.

(** C9: when the initialization data of the payment method carries a
    non-empty order id, [initialize] stores it and returns at once: the only
    call made is [getState], no SDK is loaded, nothing is rendered, the other
    three fields keep their value (unset, on a new instance), and a later
    [execute] renders nothing either and submits the payment with that order
    id, as long as the instance still holds it when [submitOrder] has
    resolved. *)
Theorem initialize_with_order_id_returns_early :
  forall (env : Collaborators) (s : Store) (r : Ref) (m g : string) (p : Ref)
         (pm : PaymentMethod) (d : PayPalCommerceInitializationData) (oid : string),
    let o := initializeOptions (heap s) r in
    truthy (methodId o) = Some m ->
    truthy (gatewayId o) = Some g ->
    match paypalcommercealternativemethods o with
    | Some x => Some x
    | None => paypalcommerce o
    end = Some p ->
    getPaymentMethodOrThrow (getState env) m g = inr pm ->
    initializationData pm = Some d ->
    truthy (init_orderId d) = Some oid ->
    let out := initialize env r s in
    out = {| result := Ok tt;
             final := {| this := set_orderId (Some oid) (this s); heap := heap s |};
             trace := [GetState] |} /\
    existsb is_sdk_or_render (trace out) = false /\
    (this s = newStrategy ->
     orderId (this (final out)) = Some oid /\
     paypalApms (this (final out)) = None /\
     loadingIndicatorContainer (this (final out)) = None /\
     paypalButton (this (final out)) = None) /\
    (forall (turns : list Action) (payload : OrderRequestBody)
            (options : option PaymentRequestOptions) (pay : OrderPaymentRequestBody),
        payment payload = Some pay ->
        let order := {| payment := None; useStoreCredit := useStoreCredit payload |} in
        let mid := payment_methodId pay in
        let gid := payment_gatewayId pay in
        let resumed := fst (history env turns (final out)) in
        let meanwhile := snd (history env turns (final out)) in
        let out2 := executeAmid env turns payload options (final out) in
        existsb is_sdk_or_render
          (trace (executeAmid env [] payload options (final out))) = false /\
        (isNonInstantPaymentMethod env mid = true ->
         trace out2 = [SubmitPayment mid (Some oid) gid; Suspend]) /\
        (isNonInstantPaymentMethod env mid = false ->
         submitOrder env order options = None ->
         trace out2 = [SubmitOrder order options; Suspend]
                      ++ meanwhile
                      ++ [SubmitPayment mid (orderId (this resumed)) gid; Suspend] /\
         (orderId (this resumed) = Some oid ->
          trace out2 = [SubmitOrder order options; Suspend]
                       ++ meanwhile
                       ++ [SubmitPayment mid (Some oid) gid; Suspend]))).
Proof.
  intros env s r m g p pm d oid o Hm Hg Hp Hpm Hd Hoid out.
  assert (Hinit : initialOrderId pm = Some oid)
    by (unfold initialOrderId; rewrite Hd; exact Hoid).
  assert (Hout : out = {| result := Ok tt;
                          final := {| this := set_orderId (Some oid) (this s);
                                      heap := heap s |};
                          trace := [GetState] |}).
  { subst out o.
    apply (initialize_stores_order_id env s r m g p pm Hm Hg Hp Hpm oid Hinit). }
  split; [exact Hout |]. rewrite Hout. cbn [trace final this].
  split; [reflexivity |].
  split.
  - intros Hnew. rewrite Hnew. repeat split.
  - intros turns payload options pay Hpay.
    set (order := {| payment := None; useStoreCredit := useStoreCredit payload |}).
    set (mid := payment_methodId pay). set (gid := payment_gatewayId pay).
    set (stored := {| this := set_orderId (Some oid) (this s); heap := heap s |}).
    assert (Hstored : truthy (orderId (this stored)) = Some oid).
    { cbn. destruct (truthy_Some _ _ Hoid) as [_ Hne].
      destruct oid; [contradiction | reflexivity]. }
    rewrite !(executeAmid_outcome env _ stored payload options pay oid Hpay Hstored).
    fold order mid gid.
    split; [| split].
    + destruct (isNonInstantPaymentMethod env mid); cbn.
      * reflexivity.
      * destruct (submitOrder env order options); reflexivity.
    + intros Hni. rewrite Hni. reflexivity.
    + intros Hni Hso. rewrite Hni, Hso. cbn [trace]. split; [reflexivity |].
      intros Hkept. rewrite Hkept. reflexivity.
Qed.

Lemma initialize_with_order_id_returns_early_witness :
  initialize (Fixtures.sampleEnv (Some Fixtures.withOrderId)) 0 Fixtures.freshStore =
  {| result := Ok tt;
     final := {| this := set_orderId (Some "ORDER-1") newStrategy;
                 heap := Fixtures.sampleHeap |};
     trace := [GetState] |}.
Proof.
  exact (proj1 (initialize_with_order_id_returns_early
                  (Fixtures.sampleEnv (Some Fixtures.withOrderId)) Fixtures.freshStore 0
                  "sepa" "paypalcommercealternativemethods" 0
                  (Fixtures.samplePaymentMethod (Some Fixtures.withOrderId))
                  Fixtures.withOrderId "ORDER-1"
                  eq_refl eq_refl eq_refl eq_refl eq_refl eq_refl)).
Defined.

(** C2, as the code has it: each of the three guards of [initialize] raises
    its [InvalidArgumentError] before anything is delegated and leaves the
    store as it was.  Once the three arguments are there, [initialize] raises
    none of the three; it raises the [InvalidArgumentError] of [renderFields]
    when the payment method carries no order id, the cart is known, the SDK
    loads, the payment method asks for fields, the billing address is known
    and the options name no container for the fields; it raises none when the
    payment method carries an order id or does not ask for fields; and this
    is the only [InvalidArgumentError] that [initialize] constructs itself
    then. *)
Theorem initialize_guards :
  forall (env : Collaborators) (s : Store) (r : Ref),
    let o := initializeOptions (heap s) r in
    let out := initialize env r s in
    (truthy (methodId o) = None ->
     out = {| result := Err (InvalidArgumentError
                               (missing_argument_message "options.methodId"));
              final := s; trace := [] |}) /\
    (forall m, truthy (methodId o) = Some m -> truthy (gatewayId o) = None ->
     out = {| result := Err (InvalidArgumentError
                               (missing_argument_message "options.gatewayId"));
              final := s; trace := [] |}) /\
    (forall m g, truthy (methodId o) = Some m -> truthy (gatewayId o) = Some g ->
     paypalcommercealternativemethods o = None -> paypalcommerce o = None ->
     out = {| result := Err (InvalidArgumentError
                               (missing_argument_message
                                  "options.paypalcommercealternativemethods"));
              final := s; trace := [] |}) /\
    (forall m g p, truthy (methodId o) = Some m -> truthy (gatewayId o) = Some g ->
     match paypalcommercealternativemethods o with
     | Some x => Some x
     | None => paypalcommerce o
     end = Some p ->
     (forall message, result out = Err (InvalidArgumentError message) ->
        message = missing_fields_container_message \/
        raised_by_collaborator env (InvalidArgumentError message)) /\
     (forall pm, getPaymentMethodOrThrow (getState env) m g = inr pm ->
        (forall oid, initialOrderId pm = Some oid -> result out = Ok tt) /\
        (initialOrderId pm = None ->
         forall cart sdk,
           getCartOrThrow (getState env) = inr cart ->
           getPayPalApmsSdk env pm (currency_code cart) = inr sdk ->
           (wantsFields pm = false -> result out = Ok tt) /\
           (wantsFields pm = true ->
            forall billing,
              getBillingAddressOrThrow (getState env) = inr billing ->
              truthy (apmFieldsContainer (paypalOptionsAt (heap s) p)) = None ->
              result out
              = Err (InvalidArgumentError missing_fields_container_message))))).
Proof.
  intros env s r o out. subst o out.
  split; [apply initialize_missing_methodId |].
  split; [apply initialize_missing_gatewayId |].
  split; [apply initialize_missing_paypalOptions |].
  intros m g p Hm Hg Hp. split.
  - intros message.
    unfold initialize. rewrite bind_readInitializeOptions, Hm, Hg, Hp.
    set (E := fun e => forall msg, e = InvalidArgumentError msg ->
                       msg = missing_fields_container_message \/
                       raised_by_collaborator env (InvalidArgumentError msg)).
    match goal with
    | |- result (?c s) = _ -> _ => assert (Hbody : respects any_store E c)
    end.
    { assert (Hrefl : forall s0, any_store s0 s0) by (intros; exact Logic.I).
      pose proof any_store_trans as Htrans.
      assert (Hcollab : forall e, raised_by_collaborator env e -> E e).
      { intros e He msg ->. right. exact He. }
      assert (Hclient : E PaymentMethodClientUnavailableError).
      { intros msg H. discriminate H. }
      assert (Hfields : E (InvalidArgumentError missing_fields_container_message)).
      { intros msg H. inversion H. left. reflexivity. }
      repeat first
        [ respects_step
        | apply respects_renderButton; try assumption; frame_auto
        | apply respects_renderFields; try assumption; frame_auto ];
        frame_auto.
      all: apply Hcollab; unfold raised_by_collaborator; eauto 15. }
    intros H. exact (proj2 (Hbody s) _ H message eq_refl).
  - intros pm Hpm. split.
    + intros oid Hoid.
      rewrite (initialize_stores_order_id env s r m g p pm Hm Hg Hp Hpm oid Hoid).
      reflexivity.
    + intros Hoid cart sdk Hcart Hsdk.
      rewrite (initialize_renders_button env s r m g p pm Hm Hg Hp Hpm Hoid cart Hcart
                 sdk Hsdk).
      split.
      * intros Hw. rewrite Hw. reflexivity.
      * intros Hw billing Hbilling Hc. rewrite Hw.
        match goal with
        | |- context [renderFields env m p ?st] =>
            rewrite (renderFields_without_container env m p st sdk billing eq_refl
                       Hbilling Hc)
        end.
        reflexivity.
Qed.

Lemma initialize_guards_witness :
  initialize (Fixtures.sampleEnv None) 2 Fixtures.freshStore =
  {| result := Err (InvalidArgumentError (missing_argument_message "options.methodId"));
     final := Fixtures.freshStore; trace := [] |}.
Proof.
  exact (proj1 (initialize_guards (Fixtures.sampleEnv None) Fixtures.freshStore 2)
           eq_refl).
Defined.

(** ** Errors of the public operations *)


